(** * Process Mining made easy: the page script's helper functions

    A shallow embedding of [page_process_mining_made_easy.py]: the
    temporary-file janitor [clear_tempfiles], the two cached loaders
    [load_file_to_dataframe] and [load_event_log_from_dataframe], the
    duration formatter [make_text_from_seconds], and the parts of the page
    script that decide whether a dataframe and an event log exist (file
    load, data preview, column validation).

    Conventions.
    - A finite Python number is the rational number it denotes, in [Q]:
      [make_text_from_seconds] on [Q] is the function on the ints and the
      finite floats, which compare with an int constant by value.
      [Py.make_text_from_seconds] is the function on all numbers: it adds
      the infinities and NaN, the ints whose quotient is too large for a
      float and the ints Python does not print, and with them the
      exceptions the function can end in; on a finite number in range it
      agrees with the function on [Q].
    - Division and [round] are taken on the value.  Left out: the binary64
      rounding of a quotient, the rounding of numpy's [round], which
      scales the float before it rounds, and the exponent notation Python
      prints from 1e16 on.  They can change the digits printed for a
      quotient, never the branch that runs, the unit word or whether the
      function raises; the whole number printed in the seconds branch is
      exact.
    - A dict is a [gmap]; a dataframe is the list of its rows, a row being
      the dict from column label to cell.  The rows of a dataframe all
      have the labels of its columns ([columns_of]).
    - pandas, pm4py and streamlit are not part of the repository.  Their
      entry points are parameters of the section [Page]; what streamlit
      displays and which library calls are made is collected, in order, in
      a list of events.  The event log of a dataframe is what
      [pm4py.format_dataframe] makes of the table it is handed.
    - [st.cache_data] keeps the values a function returned.  The loaders
      are given by the run of their body, which is what a call does whose
      arguments the cache does not hold; a call that the cache answers
      returns the same value, without the library call.
    - [os.remove] also sets the modification time of the folder that held
      the file, which the script never reads; the file system here leaves
      the entry of the folder as it is. *)

From Stdlib Require Import ZArith QArith Qround Lqa String Ascii DecimalString Lia.
From stdpp Require Import gmap strings list fin_maps.

(** ** Python values shared by the whole script *)

(** What a call gives back: a value, or the exception it raised. *)
Inductive result (E A : Type) : Type :=
| Ok (a : A)
| Raise (e : E).
Arguments Ok {E A} a.
Arguments Raise {E A} e.

#[global] Instance result_ret {E} : MRet (result E) := fun _ a => Ok a.

#[global] Instance result_bind {E} : MBind (result E) := fun _ _ k r =>
  match r with
  | Ok a => k a
  | Raise e => Raise e
  end.

(** ** [make_text_from_seconds] *)

(** [seconds < c] for an integer constant [c]. *)
Definition lt_const (seconds : Q) (c : Z) : bool :=
  negb (Qle_bool (inject_Z c) seconds).

(** The integer nearest to [x], a tie going to the even neighbour: what
    Python's [round] does with the value it is given. *)
Definition round_half_even (x : Q) : Z :=
  let f := Qfloor x in
  let twice_rest := (2 * (Qnum x mod Zpos (Qden x)))%Z in
  if (twice_rest <? Zpos (Qden x))%Z then f
  else if (Zpos (Qden x) <? twice_rest)%Z then (f + 1)%Z
  else if Z.even f then f else (f + 1)%Z.

(** [round(x, ndigits)] for [ndigits >= 0], on the value of [x]. *)
Definition py_round (x : Q) (ndigits : nat) : Q :=
  let scale := inject_Z (10 ^ Z.of_nat ndigits) in
  (inject_Z (round_half_even (x * scale)) / scale)%Q.

(** [int(x)]: truncation toward zero. *)
Definition py_int (x : Q) : Z := Z.quot (Qnum x) (Zpos (Qden x)).

(** How an f-string prints an int. *)
Definition str_int (z : Z) : string := NilZero.string_of_int (Z.to_int z).

(** How an f-string prints a float that [round(_, 1)] produced: the integer
    part, a point and one digit (["1.0"], ["59.5"]), which is what Python
    prints below 1e16. *)
Definition str_float (x : Q) : string :=
  let tenths := py_int (x * inject_Z 10) in
  let sign := if (tenths <? 0)%Z then "-" else "" in
  sign +:+ str_int (Z.abs tenths / 10) +:+ "." +:+ str_int (Z.abs tenths mod 10).

Definition make_text_from_seconds (seconds : Q) : string :=
  if lt_const seconds (60 * 2) then
    str_int (py_int (py_round seconds 0)) +:+ " seconds"
  else if lt_const seconds (3600 * 1) then
    str_int (py_int (py_round (seconds / inject_Z 60) 0)) +:+ " minutes"
  else if lt_const seconds (86400 * 1) then
    str_float (py_round (seconds / inject_Z 3600) 1) +:+ " hours"
  else if lt_const seconds (604800 * 2) then
    str_float (py_round (seconds / inject_Z 86400) 1) +:+ " days"
  else if lt_const seconds (2592000 * 1) then
    str_float (py_round (seconds / inject_Z 604800) 1) +:+ " weeks"
  else
    str_float (py_round (seconds / inject_Z 2592000) 1) +:+ " months".

(** The six units of a text. *)
Inductive time_unit := Seconds | Minutes | Hours | Days | Weeks | Months.

Definition unit_word (u : time_unit) : string :=
  match u with
  | Seconds => "seconds"
  | Minutes => "minutes"
  | Hours => "hours"
  | Days => "days"
  | Weeks => "weeks"
  | Months => "months"
  end.

(** The units from the smallest to the largest. *)
Definition unit_rank (u : time_unit) : nat :=
  match u with
  | Seconds => 0
  | Minutes => 1
  | Hours => 2
  | Days => 3
  | Weeks => 4
  | Months => 5
  end.

(** The unit a text is in is read off its last word, the part after its
    last space. *)
Fixpoint last_word_from (word text : string) : string :=
  match text with
  | EmptyString => word
  | String c rest =>
      if Ascii.eqb c " " then last_word_from rest rest
      else last_word_from word rest
  end.

Definition last_word (text : string) : string := last_word_from text text.

Definition unit_of_text (text : string) : option time_unit :=
  let w := last_word text in
  find (fun u => String.eqb (unit_word u) w)
       [Seconds; Minutes; Hours; Days; Weeks; Months].

(** ** The file system and [clear_tempfiles] *)

Inductive exn :=
| FileNotFoundError (path : list string)
| NotADirectoryError (path : list string)
| IsADirectoryError (path : list string)
| FileExistsError (path : list string)
| KeyError (key : string)
| ValueError (message : string)
| OverflowError (message : string)
| Exception (message : string).

Inductive kind := RegularFile | Directory | Special.

#[global] Instance kind_eq_dec : EqDecision kind.
Proof. solve_decision. Defined.

(** What [os.stat] knows of a path: its kind and its modification time, in
    seconds since the epoch. *)
Record entry := { entry_kind : kind; st_mtime : Q }.

(** A path is the list of its components; the file system maps the paths
    that exist to their entries. *)
Abbreviation path := (list string).
Abbreviation filesystem := (gmap (list string) entry).

Definition TEMPORARY_FILES_FOLDER_NAME : path := ["tempfilesProcessMiningSimple"].

Definition os_path_join (folder : path) (name : string) : path := folder ++ [name].

Definition os_path_exists (p : path) (fs : filesystem) : bool :=
  bool_decide (is_Some (fs !! p)).

Definition os_path_isfile (p : path) (fs : filesystem) : bool :=
  match fs !! p with
  | Some e => bool_decide (entry_kind e = RegularFile)
  | None => false
  end.

Definition os_path_getmtime (p : path) (fs : filesystem) : result exn Q :=
  match fs !! p with
  | Some e => Ok (st_mtime e)
  | None => Raise (FileNotFoundError p)
  end.

(** The name under which [p] is listed in [folder], if it lies directly
    in it. *)
Definition child_name (folder p : path) : option string :=
  match drop (length folder) p with
  | [name] => if decide (take (length folder) p = folder) then Some name else None
  | _ => None
  end.

Definition os_listdir (folder : path) (fs : filesystem) : result exn (list string) :=
  match fs !! folder with
  | None => Raise (FileNotFoundError folder)
  | Some e =>
      if decide (entry_kind e = Directory)
      then Ok (omap (child_name folder) (map_to_list fs).*1)
      else Raise (NotADirectoryError folder)
  end.

(** [os.remove] takes the path away.  It also sets the modification time
    of the folder that held it; the sweep reads the time of regular files
    only, and the entry of the folder is left as it was here.  What a
    removal does to the folder's own entry is set aside with
    [same_but_folder]. *)
Definition os_remove (p : path) (fs : filesystem) : result exn filesystem :=
  match fs !! p with
  | None => Raise (FileNotFoundError p)
  | Some e =>
      if decide (entry_kind e = Directory) then Raise (IsADirectoryError p)
      else Ok (delete p fs)
  end.

(** [os.makedirs] of a one-component path. *)
Definition os_makedirs (now : Q) (p : path) (fs : filesystem) : result exn filesystem :=
  match fs !! p with
  | Some _ => Raise (FileExistsError p)
  | None => Ok (<[p := {| entry_kind := Directory; st_mtime := now |}]> fs)
  end.

(** A [for] loop over a list whose body may raise. *)
Fixpoint for_each {S A : Type} (body : S -> A -> result exn S) (items : list A) (s : S)
  : result exn S :=
  match items with
  | [] => Ok s
  | x :: rest => s' ← body s x; for_each body rest s'
  end.

(** [x < y] on numbers. *)
Definition Qltb (x y : Q) : bool := negb (Qle_bool y x).

(** One turn of the loop of [clear_tempfiles]. *)
Definition clear_tempfiles_body (temp_folder : path) (cutoff : Q)
    (fs : filesystem) (filename : string) : result exn filesystem :=
  let file_path := os_path_join temp_folder filename in
  if os_path_isfile file_path fs then
    file_modified_time ← os_path_getmtime file_path fs;
    if Qltb file_modified_time cutoff then os_remove file_path fs
    else Ok fs
  else Ok fs.

(** [now] is what [time.time()] returns. *)
Definition clear_tempfiles (now : Q) (fs : filesystem) : result exn filesystem :=
  let temp_folder := TEMPORARY_FILES_FOLDER_NAME in
  let cutoff := (now - inject_Z 3600)%Q in
  names ← os_listdir temp_folder fs;
  for_each (clear_tempfiles_body temp_folder cutoff) names fs.

(** Lines 21, 22 and 44 of the script: the folder is created when missing,
    then swept. *)
Definition startup (now : Q) (fs : filesystem) : result exn filesystem :=
  fs ← (if negb (os_path_exists TEMPORARY_FILES_FOLDER_NAME fs)
        then os_makedirs now TEMPORARY_FILES_FOLDER_NAME fs
        else Ok fs);
  clear_tempfiles now fs.

(** A path the sweep takes away: a regular file older than the cutoff. *)
Definition stale (cutoff : Q) (fs : filesystem) (p : path) : bool :=
  match fs !! p with
  | Some e => bool_decide (entry_kind e = RegularFile) && Qltb (st_mtime e) cutoff
  | None => false
  end.

(** File systems that hold the same entries beside the temporary folder's
    own: they differ at most in what [os.stat] knows of the folder. *)
Definition same_but_folder (fs fs' : filesystem) : Prop :=
  forall p, p <> TEMPORARY_FILES_FOLDER_NAME -> fs !! p = fs' !! p.

(** [str(e)] of an exception, as the error message of the page shows it. *)
Definition str_exn (e : exn) : string :=
  match e with
  | FileNotFoundError p => "No such file or directory: " +:+ String.concat "/" p
  | NotADirectoryError p => "Not a directory: " +:+ String.concat "/" p
  | IsADirectoryError p => "Is a directory: " +:+ String.concat "/" p
  | FileExistsError p => "File exists: " +:+ String.concat "/" p
  | KeyError key => "'" +:+ key +:+ "'"
  | ValueError message => message
  | OverflowError message => message
  | Exception message => message
  end.

(** ** [make_text_from_seconds] on all numbers *)

(** What the function can be called with: an int, a finite float, given by
    the rational number it is, an infinity or NaN.  numpy's [float64] and
    [int64], which the page passes, compare, divide and print as Python's
    float and int do. *)
Inductive number :=
| PyInt (z : Z)
| PyFloat (x : Q)
| PyInf (negative : bool)
| PyNaN.

(** The floats lie strictly between [- 2^1024] and [2^1024].  The quotient
    of two ints is the float nearest to it, and there is none from
    [2^1024 - 2^970] on, halfway between the largest float and [2^1024]. *)
Definition float_limit : Z := 2 ^ 1024.
Definition float_overflow : Z := 2 ^ 1024 - 2 ^ 970.

(** An int of more than 4300 digits is not turned into text (Python 3.11
    and later, [sys.get_int_max_str_digits()]). *)
Definition int_max_str : Z := 10 ^ 4300.

Module Py.

(** [seconds < c] for an int constant [c]: numbers compare by value, the
    infinities lie below and above every int, and NaN is below nothing. *)
Definition lt (seconds : number) (c : Z) : bool :=
  match seconds with
  | PyInt z => lt_const (inject_Z z) c
  | PyFloat x => lt_const x c
  | PyInf negative => negative
  | PyNaN => false
  end.

(** [seconds >= c], which the function does not evaluate: NaN is not above
    anything either. *)
Definition ge (seconds : number) (c : Z) : bool :=
  match seconds with
  | PyInt z => Qle_bool (inject_Z c) (inject_Z z)
  | PyFloat x => Qle_bool (inject_Z c) x
  | PyInf negative => negb negative
  | PyNaN => false
  end.

(** [seconds / c] for an int constant [c > 0]: always a float.  Only the
    quotient of two ints can fail, when it is too large for a float. *)
Definition truediv (seconds : number) (c : Z) : result exn number :=
  match seconds with
  | PyInt z =>
      if (c * float_overflow <=? Z.abs z)%Z
      then Raise (OverflowError "integer division result too large for a float")
      else Ok (PyFloat (inject_Z z / inject_Z c))
  | PyFloat x => Ok (PyFloat (x / inject_Z c))
  | PyInf negative => Ok (PyInf negative)
  | PyNaN => Ok PyNaN
  end.

(** [round(x, ndigits)] for [ndigits >= 0]: an int is returned as it is, a
    float rounded; the infinities and NaN round to themselves. *)
Definition round (x : number) (ndigits : nat) : number :=
  match x with
  | PyInt z => PyInt z
  | PyFloat x => PyFloat (py_round x ndigits)
  | PyInf negative => PyInf negative
  | PyNaN => PyNaN
  end.

(** [int(x)]. *)
Definition int (x : number) : result exn Z :=
  match x with
  | PyInt z => Ok z
  | PyFloat x => Ok (py_int x)
  | PyInf _ => Raise (OverflowError "cannot convert float infinity to integer")
  | PyNaN => Raise (ValueError "cannot convert float NaN to integer")
  end.

(** How an f-string prints a number. *)
Definition str (x : number) : result exn string :=
  match x with
  | PyInt z =>
      if (Z.abs z <? int_max_str)%Z then Ok (str_int z)
      else Raise (ValueError "Exceeds the limit (4300 digits) for integer string conversion; use sys.set_int_max_str_digits() to increase the limit")
  | PyFloat x => Ok (str_float x)
  | PyInf negative => Ok (if negative then "-inf" else "inf")
  | PyNaN => Ok "nan"
  end.

Definition make_text_from_seconds (seconds : number) : result exn string :=
  if lt seconds (60 * 2) then
    whole ← int (round seconds 0);
    text ← str (PyInt whole);
    mret (text +:+ " seconds")
  else if lt seconds (3600 * 1) then
    quotient ← truediv seconds 60;
    whole ← int (round quotient 0);
    text ← str (PyInt whole);
    mret (text +:+ " minutes")
  else if lt seconds (86400 * 1) then
    quotient ← truediv seconds 3600;
    text ← str (round quotient 1);
    mret (text +:+ " hours")
  else if lt seconds (604800 * 2) then
    quotient ← truediv seconds 86400;
    text ← str (round quotient 1);
    mret (text +:+ " days")
  else if lt seconds (2592000 * 1) then
    quotient ← truediv seconds 604800;
    text ← str (round quotient 1);
    mret (text +:+ " weeks")
  else
    quotient ← truediv seconds 2592000;
    text ← str (round quotient 1);
    mret (text +:+ " months").

(** The numbers the function has a text for, NaN aside: the floats, the
    ints it can print and divide, and the positive infinity. *)
Definition in_range (seconds : number) : Prop :=
  match seconds with
  | PyInt z => (- int_max_str < z < 2592000 * float_overflow)%Z
  | PyFloat x => (inject_Z (- float_limit) < x /\ x < inject_Z float_limit)%Q
  | PyInf negative => negative = false
  | PyNaN => False
  end.

End Py.

(** [s[n:]] for [n >= 0]. *)
Fixpoint slice_from (n : nat) (s : string) : string :=
  match n, s with
  | O, _ => s
  | S _, EmptyString => EmptyString
  | S n', String _ rest => slice_from n' rest
  end.

(** ** The keys of the variant table *)

(** [".".join(k)] for a variant [k], the tuple of the activity names of a
    case. *)
Definition variant_key (variant : list string) : string := String.concat "." variant.

(** [{(".".join(k)): v for k, v in log_variants.items()}]: the entries go
    into the new dict in order, a later one replacing an earlier one of
    the same key. *)
Definition log_variants_new {V : Type} (log_variants : list (list string * V))
  : gmap string V :=
  foldl (fun d '(k, v) => <[variant_key k := v]> d) ∅ log_variants.

Fixpoint has_dot (s : string) : bool :=
  match s with
  | EmptyString => false
  | String c rest => Ascii.eqb c "." || has_dot rest
  end.

(** A variant of at least one activity whose names hold no dot. *)
Definition plain_variant (variant : list string) : Prop :=
  variant <> [] /\ Forall (fun name => has_dot name = false) variant.

(** ** Sample inputs *)

(** A file system with the folder, a graph image 61 minutes old and one 59
    minutes old at time 10000, a subfolder, and a file elsewhere. *)
Definition sample_fs : filesystem :=
  <[ ["tempfilesProcessMiningSimple"] := {| entry_kind := Directory; st_mtime := 0 |} ]>
  (<[ ["tempfilesProcessMiningSimple"; "dfg.png"] :=
        {| entry_kind := RegularFile; st_mtime := 10000 - 3660 |} ]>
  (<[ ["tempfilesProcessMiningSimple"; "performance_dfg.png"] :=
        {| entry_kind := RegularFile; st_mtime := 10000 - 3540 |} ]>
  (<[ ["tempfilesProcessMiningSimple"; "old"] :=
        {| entry_kind := Directory; st_mtime := 0 |} ]>
  (<[ ["tempfilesProcessMiningSimple"; "old"; "x.png"] :=
        {| entry_kind := RegularFile; st_mtime := 0 |} ]>
  (<[ ["notes.txt"] := {| entry_kind := RegularFile; st_mtime := 0 |} ]> ∅))))).

(** Two rows of the tablet production example, cells as their texts. *)
Definition sample_production : list (gmap string string) :=
  [ <["case_id" := "1"]> (<["activity" := "Granulation"]>
      (<["timestamp_start" := "01.10.2023"]> (<["timestamp_end" := "10.10.2023"]> ∅)));
    <["case_id" := "1"]> (<["activity" := "Tabletting"]>
      (<["timestamp_start" := "14.10.2023"]> (<["timestamp_end" := "17.10.2023"]> ∅))) ].

(** The cells of a dataframe that has a column of texts are what
    [df.iterrows()] yields. *)
Definition keep_cell (df : list (gmap string string)) (cell : string) : string := cell.



(** A formatter that keeps the table as it is. *)
Definition keep_table (data : list (gmap string string)) (case_id activity_key timestamp_key : string)
  : result exn (list (gmap string string)) := Ok data.

(** Every column but [case_id] and [activity] holds datetimes. *)
Definition sample_dtype (df : list (gmap string string)) (column : string) : string :=
  if String.eqb column "case_id" then "object"
  else if String.eqb column "activity" then "object"
  else "datetime64[ns]".

(** A formatter that rejects every table. *)
Definition rejecting_formatter (data : list (gmap string string))
    (case_id activity_key timestamp_key : string)
  : result exn (list (gmap string string)) :=
  Raise (Exception "the dataframe cannot be formatted").

(** A sheet that cannot be read. *)
Definition locked_sheet (s : unit) : result exn (list (gmap string string)) :=
  Raise (Exception "Network Error").

Section Page.

(** *** What the libraries provide *)

(** The cells of a dataframe are Python objects; [str] is Python's, and a
    Python string is an object. *)
Variable object : Type.
Variable str : object -> string.
Variable PyStr : string -> object.

(** [pd.to_datetime] of one date text in the format ["%d.%m.%Y"]. *)
Variable to_datetime : string -> object.

Abbreviation row := (gmap string object).
Abbreviation dataframe := (list (gmap string object)).

(** The name of the dtype pandas gave a column, as [df[column].dtype]
    compares with a string. *)
Variable dtype : dataframe -> string -> string.

(** A cell as the row Series of [df.iterrows()] holds it.  pandas builds
    each Series from [df.values], the cells in the one dtype that fits all
    columns: where only numeric columns meet, an int cell becomes a float
    ([1] becomes [1.0]); elsewhere a cell stays what it is, as in every
    dataframe with a column of texts or of datetimes. *)
Variable upcast : dataframe -> object -> object.

(** An uploaded workbook is the list of its sheets; pandas turns a sheet
    into a dataframe or raises. *)
Variable sheet : Type.
Variable parse_sheet : sheet -> result exn dataframe.
Abbreviation workbook := (list sheet).

(** [pm4py.format_dataframe(df, case_id=, activity_key=, timestamp_key=)]. *)
Variable event_log : Type.
Variable format_dataframe : dataframe -> string -> string -> string -> result exn event_log.

(** *** What the page shows and calls *)

Inductive event :=
| st_header (body : string)
| st_subheader (body : string)
| st_text (body : string)
| st_selectbox (label : string)
| st_file_uploader (label : string)
| st_expander (label : string)
| st_success (body : string)
| st_error (body : string)
| st_warning (body : string)
| st_info (body : string)
| st_dataframe (data : dataframe)
| st_divider
| st_caption (body : string)
| call_read_excel (io : workbook) (sheet_name : nat)
| call_format_dataframe (data : dataframe) (case_id activity_key timestamp_key : string).

(** A run of script code: the events it produced, in order, and its value
    or the exception that ended it. *)
Definition UI (A : Type) : Type := (list event * result exn A)%type.

Definition ui_ret {A} (a : A) : UI A := ([], Ok a).

Definition ui_bind {A B} (k : A -> UI B) (m : UI A) : UI B :=
  match m with
  | (shown, Ok a) => let '(shown', r) := k a in (shown ++ shown', r)
  | (shown, Raise e) => (shown, Raise e)
  end.

#[global] Instance UI_ret : MRet UI := @ui_ret.
#[global] Instance UI_bind : MBind UI := @ui_bind.

Definition show (w : event) : UI unit := ([w], Ok tt).

(** [try: body  except Exception as e: handler(e)]. *)
Definition try_except {A} (body : UI A) (handler : exn -> UI A) : UI A :=
  match body with
  | (shown, Ok a) => (shown, Ok a)
  | (shown, Raise e) => let '(shown', r) := handler e in (shown ++ shown', r)
  end.

(** [pd.read_excel(io, sheet_name=n)] for an integer [n]: the sheet at that
    position. *)
Definition pd_read_excel (io : workbook) (sheet_name : nat) : UI dataframe :=
  ([call_read_excel io sheet_name],
   match io !! sheet_name with
   | Some s => parse_sheet s
   | None => Raise (ValueError "Worksheet index out of range")
   end).

Definition pm4py_format_dataframe (data : dataframe) (case_id activity_key timestamp_key : string)
  : UI event_log :=
  ([call_format_dataframe data case_id activity_key timestamp_key],
   format_dataframe data case_id activity_key timestamp_key).

(** *** Dicts of columns and dataframes *)

(** [row[key]] for a row of [df.iterrows()].  The labels of the row are
    the columns of the dataframe: [KeyError] is raised for a label that is
    no column. *)
Definition getitem (r : row) (key : string) : result exn object :=
  match r !! key with
  | Some v => Ok v
  | None => Raise (KeyError key)
  end.

(** [data[key].append(v)]. *)
Definition append_to (data : gmap string (list object)) (key : string) (v : object)
  : result exn (gmap string (list object)) :=
  match data !! key with
  | Some column => Ok (<[key := column ++ [v]]> data)
  | None => Raise (KeyError key)
  end.

(** [pd.DataFrame(data)] for a dict of lists: the lists are the columns
    and must be equally long. *)
Definition pd_DataFrame (data : gmap string (list object)) : result exn dataframe :=
  match map_to_list data with
  | [] => Ok []
  | (_, column) :: _ =>
      if decide (map_Forall (fun _ c => length c = length column) data)
      then Ok ((fun i => omap (fun c : list object => c !! i) data) <$> seq 0 (length column))
      else Raise (ValueError "All arrays must be of the same length")
  end.

(** The rows that [df.iterrows()] yields: one Series per row, with the
    labels of the row. *)
Definition iterrows (df : dataframe) : dataframe :=
  (fun r : row => upcast df <$> r) <$> df.

(** *** The cached loaders *)

(** Both loaders are wrapped in [st.cache_data].  The definitions give a
    call that runs the body: the first call with its arguments, and every
    call after one that raised, since an exception is not stored.  A later
    call with the same arguments is answered from the cache: it returns
    the same value and makes no library call. *)
Definition load_file_to_dataframe (filename : workbook) : UI dataframe :=
  df ← pd_read_excel filename 0;
  mret df.

(** One turn of the loop that splits a row in two; [r] is the row as
    [df.iterrows()] yields it. *)
Definition split_row (case_column activity_column timestamp_column timestamp_end_column : string)
    (new_data : gmap string (list object)) (r : row)
  : result exn (gmap string (list object)) :=
  v ← getitem r case_column;
  new_data ← append_to new_data case_column v;
  v ← getitem r activity_column;
  new_data ← append_to new_data activity_column (PyStr (str v +:+ "_start"));
  v ← getitem r timestamp_column;
  new_data ← append_to new_data timestamp_column v;
  v ← getitem r case_column;
  new_data ← append_to new_data case_column v;
  v ← getitem r activity_column;
  new_data ← append_to new_data activity_column (PyStr (str v +:+ "_end"));
  v ← getitem r timestamp_end_column;
  append_to new_data timestamp_column v.

Definition lift {A} (r : result exn A) : UI A := ([], r).

Definition load_event_log_from_dataframe (df : dataframe)
    (case_column activity_column timestamp_column : string)
    (timestamp_end_column : option string) : UI event_log :=
  match timestamp_end_column with
  | None =>
      new_log ← pm4py_format_dataframe df case_column activity_column timestamp_column;
      mret new_log
  | Some timestamp_end_column =>
      let new_data : gmap string (list object) :=
        <[case_column := []]> (<[activity_column := []]> (<[timestamp_column := []]> ∅)) in
      new_data ← lift (for_each
        (split_row case_column activity_column timestamp_column timestamp_end_column)
        (iterrows df) new_data);
      df_new ← lift (pd_DataFrame new_data);
      new_log ← pm4py_format_dataframe df_new case_column activity_column timestamp_column;
      mret new_log
  end.

(** *** The page script, from [df = None] on *)

Definition load_procedures : list string :=
  ["Load from file";
   "Load example data 1 - Purchase orders";
   "Load example data 2 - Tablet production"].

Definition example_data_1 : gmap string (list object) :=
  <["case_id" := PyStr <$>
      ["1"; "1"; "1"; "1"; "1";
       "2"; "2"; "2"; "2"; "2";
       "3"; "3"; "3"; "3"; "3"; "3";
       "4"; "4"; "4"; "4"; "4"]]>
  (<["activity" := PyStr <$>
      ["Create purchase order"; "Select vendor"; "Send PO"; "Receive goods"; "Authorize invoice";
       "Create purchase order"; "Select vendor"; "Send PO"; "Receive goods"; "Authorize invoice";
       "Create purchase order"; "Select vendor"; "Send PO"; "Receive goods"; "Quality defect";
       "Authorize invoice";
       "Create purchase order"; "Select vendor"; "Send PO"; "Receive goods"; "Authorize invoice"]]>
  (<["timestamp" := to_datetime <$>
      ["01.10.2023"; "03.10.2023"; "04.10.2023"; "03.11.2023"; "08.11.2023";
       "04.10.2023"; "09.10.2023"; "12.10.2023"; "02.11.2023"; "11.11.2023";
       "18.10.2023"; "23.10.2023"; "23.10.2023"; "30.10.2023"; "03.11.2023"; "25.11.2023";
       "01.11.2023"; "08.11.2023"; "12.11.2023"; "01.12.2023"; "08.12.2023"]]> ∅)).

Definition example_data_2 : gmap string (list object) :=
  <["case_id" := PyStr <$>
      ["1"; "1"; "1";
       "2"; "2"; "2";
       "3"; "3"; "3";
       "4"; "4"; "4"; "4";
       "5"; "5"; "5"; "5"]]>
  (<["activity" := PyStr <$>
      ["Granulation"; "Tabletting"; "Coating";
       "Granulation"; "Tabletting"; "Coating";
       "Granulation"; "Tabletting"; "Coating";
       "Granulation"; "Tabletting"; "Coating"; "Sorting";
       "Granulation"; "Tabletting"; "Coating"; "Sorting"]]>
  (<["timestamp_start" := to_datetime <$>
      ["01.10.2023"; "14.10.2023"; "18.10.2023";
       "04.10.2023"; "12.10.2023"; "18.10.2023";
       "09.10.2023"; "19.10.2023"; "25.10.2023";
       "11.10.2023"; "20.10.2023"; "24.10.2023"; "30.10.2023";
       "18.10.2023"; "24.10.2023"; "31.10.2023"; "04.11.2023"]]>
  (<["timestamp_end" := to_datetime <$>
      ["10.10.2023"; "17.10.2023"; "22.10.2023";
       "08.10.2023"; "14.10.2023"; "24.10.2023";
       "10.10.2023"; "23.10.2023"; "30.10.2023";
       "17.10.2023"; "23.10.2023"; "29.10.2023"; "02.11.2023";
       "22.10.2023"; "27.10.2023"; "03.11.2023"; "08.11.2023"]]> ∅))).

(** Lines 108 to 166: the dataframe of this run, if any. *)
Definition load_data (select_load_procedure : string) (uploaded_file : option workbook)
  : UI (option dataframe) :=
  let df : option dataframe := None in
  _ ← show (st_header "Load data");
  _ ← show (st_text "Choose how to load data for process mining analysis, either from a file or use example data.");
  _ ← show (st_selectbox "Select load procedure");
  df ← (if String.eqb select_load_procedure "Load from file" then
          _ ← show (st_file_uploader "Choose an Excel file, data from first sheet is loaded, if you see 'Network Error', most likely file is opened in Excel, close it.");
          match uploaded_file with
          | Some uploaded_file =>
              try_except
                (loaded ← load_file_to_dataframe uploaded_file;
                 _ ← show (st_success "File loaded successfully!");
                 mret (Some loaded))
                (fun e =>
                 _ ← show (st_error ("Error loading file: " +:+ str_exn e +:+
                     ", if it is a network error most likely you have the file open in Excel. Close it."));
                 mret df)
          | None => mret df
          end
        else mret df);
  df ← (if String.eqb select_load_procedure "Load example data 1 - Purchase orders" then
          example ← lift (pd_DataFrame example_data_1);
          mret (Some example)
        else mret df);
  df ← (if String.eqb select_load_procedure "Load example data 2 - Tablet production" then
          example ← lift (pd_DataFrame example_data_2);
          _ ← show (st_info "Try to set timestamp_end columns to 'timestamp_end to see how the activities are automatically split into start/end.");
          mret (Some example)
        else mret df);
  mret df.

(** Lines 173 to 184: the data preview. *)
Definition view_loaded_data (select_load_procedure : string) (df : dataframe) : UI unit :=
  _ ← show (st_expander "View loaded data");
  _ ← show (st_subheader "Data table");
  if String.eqb (slice_from 10 select_load_procedure) "Load example" then
    _ ← show (st_text "All data is shown below.");
    show (st_dataframe df)
  else if 30 <? length df then
    _ ← show (st_text "First 15 rows of data are shown below.");
    show (st_dataframe (take 15 df))
  else
    _ ← show (st_text "All data is shown below.");
    show (st_dataframe df).

(** What the four select boxes of the column form return. *)
Record selection := {
  case_column : string;
  activity_column : string;
  timestamp_start_column : string;
  timestamp_end_column : option string
}.

(** The selection of the first three columns of the production table, and
    one that takes the case column for the activity as well. *)
Definition sample_selection : selection :=
  {| case_column := "case_id"; activity_column := "activity";
     timestamp_start_column := "timestamp_start"; timestamp_end_column := None |}.

Definition sample_collision : selection :=
  {| case_column := "case_id"; activity_column := "case_id";
     timestamp_start_column := "timestamp_start"; timestamp_end_column := None |}.

(** Lines 186 to 219: the column form.  [chosen] is what the user picked. *)
Definition define_columns (chosen : selection) : UI selection :=
  _ ← show (st_expander "Define columns with relevant data");
  _ ← show (st_subheader "Choose columns for case, activity and timestamp");
  _ ← show (st_selectbox "Select column for case");
  _ ← show (st_text "A case is a sequence of activities that belong together. This column should contain the case identifier.");
  _ ← show (st_selectbox "Select column for activity");
  _ ← show (st_text "An activity is a step in the process. This column should contain the activity identifier.");
  _ ← show (st_selectbox "Select column for timestamp");
  _ ← show (st_text "A timestamp is the time when an activity was executed. This column should contain the timestamp.");
  _ ← show (st_selectbox "Select column for timestamp end");
  _ ← show (st_text " If not available, leave empty. Defines the end timestamp for each activity. If defined, activities will be split in 'activity start' and 'activity end' events.");
  mret chosen.

(** [if condition: st.warning(body); any_warning = True]. *)
Definition warn_if (condition : bool) (body : string) (any_warning : bool) : UI bool :=
  if condition then _ ← show (st_warning body); mret true
  else mret any_warning.

(** Lines 222 to 254: the checks of the selection. *)
Definition check_selection (df : dataframe) (sel : selection) : UI bool :=
  let any_warning := false in
  any_warning ← warn_if (bool_decide (case_column sel = activity_column sel))
    "Case and activity column should be different" any_warning;
  any_warning ← warn_if (bool_decide (case_column sel = timestamp_start_column sel))
    "Case and timestamp start column should be different" any_warning;
  any_warning ← warn_if (bool_decide (Some (case_column sel) = timestamp_end_column sel))
    "Case and timestamp end column should be different" any_warning;
  any_warning ← warn_if (bool_decide (activity_column sel = timestamp_start_column sel))
    "Activity and timestamp start column should be different" any_warning;
  any_warning ← warn_if (bool_decide (Some (activity_column sel) = timestamp_end_column sel))
    "Activity and timestamp end column should be different" any_warning;
  any_warning ← warn_if (bool_decide (Some (timestamp_start_column sel) = timestamp_end_column sel))
    "Timestamp start and timestamp end column should be different" any_warning;
  any_warning ← warn_if (negb (String.eqb (dtype df (timestamp_start_column sel)) "datetime64[ns]"))
    "Timestamp start column should be of type datetime, convert to datetime in Excel first" any_warning;
  any_warning ← match timestamp_end_column sel with
    | Some timestamp_end_column =>
        warn_if (negb (String.eqb (dtype df timestamp_end_column) "datetime64[ns]"))
          "Timestamp end column should be of type datetime, convert to datetime in Excel first"
          any_warning
    | None => mret any_warning
    end;
  mret any_warning.

(** Lines 222 to 257: the checks, then the conversion when none warned. *)
Definition convert_to_event_log (df : dataframe) (sel : selection) : UI (option event_log) :=
  let log : option event_log := None in
  any_warning ← check_selection df sel;
  if negb any_warning then
    new_log ← load_event_log_from_dataframe df (case_column sel) (activity_column sel)
      (timestamp_start_column sel) (timestamp_end_column sel);
    mret (Some new_log)
  else mret log.

(** Lines 260 to 413 show the statistics and the two graphs of a log; they
    call pm4py, pandas and streamlit only. *)
Variable statistics_and_visualizations : event_log -> UI unit.

(** The text of the closing caption. *)
Variable footer : string.

Definition page (select_load_procedure : string) (uploaded_file : option workbook)
    (chosen : dataframe -> selection) : UI (option dataframe * option event_log) :=
  df ← load_data select_load_procedure uploaded_file;
  log ← match df with
        | Some df =>
            _ ← view_loaded_data select_load_procedure df;
            sel ← define_columns (chosen df);
            convert_to_event_log df sel
        | None => mret None
        end;
  _ ← match log with
      | Some log => statistics_and_visualizations log
      | None => mret tt
      end;
  _ ← show st_divider;
  _ ← show (st_caption footer);
  mret (df, log).

(** [df.columns.get_loc(label)] for a label that is in [columns]: its
    position. *)
Fixpoint get_loc (columns : list string) (label : string) : nat :=
  match columns with
  | [] => 0
  | c :: rest => if String.eqb c label then 0 else S (get_loc rest label)
  end.

(** Lines 191 to 214: the positions the first three select boxes start
    at. *)
Definition index_case_column (columns : list string) : nat :=
  if bool_decide ("case_id" ∈ columns) then get_loc columns "case_id" else 0.

Definition index_activity_column (columns : list string) : nat :=
  if bool_decide ("activity" ∈ columns) then get_loc columns "activity" else 0.

Definition index_timestamp_start_column (columns : list string) : nat :=
  if bool_decide ("timestamp" ∈ columns) then get_loc columns "timestamp"
  else if bool_decide ("timestamp_start" ∈ columns) then get_loc columns "timestamp_start"
  else 0.

(** What the four select boxes return before the user touches them: the
    option at the starting position, and nothing for the end timestamp,
    whose box starts empty.  Without columns there is nothing to select. *)
Definition initial_selection (columns : list string) : option selection :=
  c ← columns !! index_case_column columns;
  a ← columns !! index_activity_column columns;
  t ← columns !! index_timestamp_start_column columns;
  Some {| case_column := c; activity_column := a;
          timestamp_start_column := t; timestamp_end_column := None |}.

(** Two of the four selected columns are the same column. *)
Definition columns_collide (sel : selection) : bool :=
  bool_decide (case_column sel = activity_column sel)
  || bool_decide (case_column sel = timestamp_start_column sel)
  || bool_decide (Some (case_column sel) = timestamp_end_column sel)
  || bool_decide (activity_column sel = timestamp_start_column sel)
  || bool_decide (Some (activity_column sel) = timestamp_end_column sel)
  || bool_decide (Some (timestamp_start_column sel) = timestamp_end_column sel).

(** A selected timestamp column is not of dtype [datetime64[ns]]. *)
Definition not_datetime (df : dataframe) (sel : selection) : bool :=
  negb (String.eqb (dtype df (timestamp_start_column sel)) "datetime64[ns]")
  || match timestamp_end_column sel with
     | Some timestamp_end_column =>
         negb (String.eqb (dtype df timestamp_end_column) "datetime64[ns]")
     | None => false
     end.

Definition is_warning (w : event) : Prop :=
  match w with
  | st_warning _ => True
  | _ => False
  end.

(** What the page has shown when the load phase is over and the uploaded
    workbook could not be read. *)
Definition shown_after_failed_load (uploaded_file : workbook) (e : exn) : list event :=
  [st_header "Load data";
   st_text "Choose how to load data for process mining analysis, either from a file or use example data.";
   st_selectbox "Select load procedure";
   st_file_uploader "Choose an Excel file, data from first sheet is loaded, if you see 'Network Error', most likely file is opened in Excel, close it.";
   call_read_excel uploaded_file 0;
   st_error ("Error loading file: " +:+ str_exn e +:+
     ", if it is a network error most likely you have the file open in Excel. Close it.")].

(** The dict the loop of [load_event_log_from_dataframe] fills, by its
    three lists. *)
Definition three_columns (case_column activity_column timestamp_column : string)
    (cases activities timestamps : list object) : gmap string (list object) :=
  <[case_column := cases]>
    (<[activity_column := activities]> (<[timestamp_column := timestamps]> ∅)).


(** The row has a cell in each of the four columns. *)
Definition has_columns (case_column activity_column timestamp_column timestamp_end_column : string)
    (r : row) : Prop :=
  is_Some (r !! case_column) /\ is_Some (r !! activity_column) /\
  is_Some (r !! timestamp_column) /\ is_Some (r !! timestamp_end_column).

(** A dataframe is a table: its rows all have the same labels, the
    columns of the dataframe.  A cell without a value holds NaN; it is not
    missing from its row. *)
Definition columns_of (df : dataframe) (columns : gset string) : Prop :=
  Forall (fun r : row => dom r = columns) df.

(** A run of checks: it raises nothing, shows warnings only, and hands on
    the flag it was given, set when it warned; it warns exactly when
    [fires] holds. *)
Definition run_of_checks (fires : bool) (k : bool -> UI bool) : Prop :=
  forall any_warning,
  exists shown,
    k any_warning = (shown, Ok (any_warning || fires)) /\
    Forall is_warning shown /\
    (shown = [] <-> fires = false).

(** How many cells the list under [key] holds, none when the key is
    missing. *)
Definition len_at (data : gmap string (list object)) (key : string) : nat :=
  length (default [] (data !! key)).

(** How many cells one turn of the splitting loop appends under [key]: two
    for each of the three labels that is [key]. *)
Definition cells_per_row (case_column activity_column timestamp_column key : string) : nat :=
  (if decide (key = case_column) then 2 else 0)
  + (if decide (key = activity_column) then 2 else 0)
  + (if decide (key = timestamp_column) then 2 else 0).

(** What the page displays in a run: its events without the library
    calls, which a run answered from the cache of [st.cache_data] does not
    make. *)
Definition is_library_call (w : event) : bool :=
  match w with
  | call_read_excel _ _ | call_format_dataframe _ _ _ _ => true
  | _ => false
  end.

Definition displayed (shown : list event) : list event :=
  List.filter (fun w => negb (is_library_call w)) shown.

(** What every run of the load phase shows first. *)
Definition load_header : list event :=
  [st_header "Load data";
   st_text "Choose how to load data for process mining analysis, either from a file or use example data.";
   st_selectbox "Select load procedure"].

Definition the_file_uploader : event :=
  st_file_uploader "Choose an Excel file, data from first sheet is loaded, if you see 'Network Error', most likely file is opened in Excel, close it.".

(** *** Properties of the page script *)

(** C7: the loader asks the spreadsheet reader for sheet index 0 and for
    nothing else, and its result is that of the first sheet alone: what
    the other sheets hold does not change it. *)
Theorem load_file_reads_first_sheet (filename : workbook) :
  load_file_to_dataframe filename =
    ([call_read_excel filename 0],
     match filename with
     | first :: _ => parse_sheet first
     | [] => Raise (ValueError "Worksheet index out of range")
     end) /\
  forall first others others',
    snd (load_file_to_dataframe (first :: others))
    = snd (load_file_to_dataframe (first :: others')).
Proof using Type.
  split.
  - unfold load_file_to_dataframe, pd_read_excel. cbn.
    destruct filename as [|first others]; cbn; [reflexivity|].
    destruct (parse_sheet first); reflexivity.
  - intros first others others'. unfold load_file_to_dataframe, pd_read_excel. cbn.
    destruct (parse_sheet first); reflexivity.
Qed.

(** A dict of lists that all have [n] cells makes a dataframe of [n]
    rows. *)
Lemma pd_DataFrame_length (data : gmap string (list object)) (n : nat) :
  data <> ∅ ->
  map_Forall (fun _ c => length c = n) data ->
  exists df, pd_DataFrame data = Ok df /\ length df = n.
Proof using Type.
  intros Hdata Hall. unfold pd_DataFrame.
  destruct (map_to_list data) as [|[k column] rest] eqn:Hlist.
  { apply map_to_list_empty_iff in Hlist. contradiction. }
  assert (Hcolumn : length column = n).
  { apply (Hall k). apply elem_of_map_to_list. rewrite Hlist. apply list_elem_of_here. }
  rewrite Hcolumn, decide_True by exact Hall.
  eexists. split; [reflexivity|]. rewrite length_fmap, length_seq. reflexivity.
Qed.

(** The two example tables are well formed, of 21 and 17 rows: below the
    30 rows from which on the preview is cut. *)
Lemma example_tables :
  (exists df, pd_DataFrame example_data_1 = Ok df /\ length df = 21) /\
  (exists df, pd_DataFrame example_data_2 = Ok df /\ length df = 17).
Proof using Type.
  split; apply pd_DataFrame_length;
    try apply insert_non_empty;
    repeat (apply map_Forall_insert_2; [reflexivity|]);
    apply map_Forall_empty.
Qed.

(** C9: for each of the three load procedures the test on
    [select_load_procedure[10:]] is false, so the preview shows the first
    15 rows when the dataframe has more than 30 rows and all rows
    otherwise. *)
Theorem preview_ignores_load_procedure (select_load_procedure : string) (df : dataframe) :
  select_load_procedure ∈ load_procedures ->
  String.eqb (slice_from 10 select_load_procedure) "Load example" = false /\
  view_loaded_data select_load_procedure df =
    ([st_expander "View loaded data"; st_subheader "Data table";
      st_text (if 30 <? length df then "First 15 rows of data are shown below."
               else "All data is shown below.");
      st_dataframe (if 30 <? length df then take 15 df else df)],
     Ok tt).
Proof using Type.
  intros Hin. unfold load_procedures in Hin.
  repeat (apply elem_of_cons in Hin as [-> | Hin]);
    [| | | apply elem_of_nil in Hin; destruct Hin];
    (split; [reflexivity|]);
    unfold view_loaded_data; destruct (30 <? length df); reflexivity.
Qed.

(** The loader calls the reader once, for sheet index 0. *)
Lemma load_file_one_call (filename : workbook) :
  fst (load_file_to_dataframe filename) = [call_read_excel filename 0].
Proof using Type.
  unfold load_file_to_dataframe, pd_read_excel. cbn.
  destruct (filename !! 0) as [first|]; cbn; [destruct (parse_sheet first)|]; reflexivity.
Qed.

(** C6: when reading the uploaded workbook raises, the page shows the
    error message, has asked the reader once, and has no dataframe: the
    preview, the column form, the checks and the analysis are skipped and
    only the footer follows.  A dataframe of an upload is one the reader
    returned. *)
Theorem failed_file_load (uploaded_file : workbook) (chosen : dataframe -> selection) :
  (forall e,
      snd (load_file_to_dataframe uploaded_file) = Raise e ->
      load_data "Load from file" (Some uploaded_file)
      = (shown_after_failed_load uploaded_file e, Ok None) /\
      page "Load from file" (Some uploaded_file) chosen
      = (shown_after_failed_load uploaded_file e ++ [st_divider; st_caption footer],
         Ok (None, None))) /\
  (forall shown df,
      load_data "Load from file" (Some uploaded_file) = (shown, Ok (Some df)) ->
      snd (load_file_to_dataframe uploaded_file) = Ok df).
Proof using Type.
  split.
  - intros e He.
    assert (Hload : load_data "Load from file" (Some uploaded_file)
                    = (shown_after_failed_load uploaded_file e, Ok None)).
    { unfold load_data, shown_after_failed_load.
      destruct (load_file_to_dataframe uploaded_file) as [shown r] eqn:Hcall.
      simpl in He. subst r.
      pose proof (load_file_one_call uploaded_file) as Hfirst.
      rewrite Hcall in Hfirst. cbn in Hfirst. subst shown.
      cbn. reflexivity. }
    split; [exact Hload|].
    unfold page. rewrite Hload. cbn. reflexivity.
  - intros shown df. unfold load_data.
    destruct (load_file_to_dataframe uploaded_file) as [called [loaded|e]];
      cbn; intros H; injection H as _ H; congruence.
Qed.

Lemma run_of_checks_end : run_of_checks false (fun any_warning => mret any_warning).
Proof using Type.
  intros any_warning. exists []. rewrite orb_false_r.
  repeat split; constructor.
Qed.

Lemma run_of_checks_warn_if condition body fires k :
  run_of_checks fires k ->
  run_of_checks (condition || fires)
    (fun any_warning => any_warning ← warn_if condition body any_warning; k any_warning).
Proof using Type.
  intros Hk any_warning. unfold warn_if. destruct condition.
  - destruct (Hk true) as (shown & Hrun & Hwarn & _).
    exists (st_warning body :: shown). cbn. rewrite Hrun. cbn.
    rewrite orb_true_r. repeat split; [|discriminate..].
    constructor; [exact I | exact Hwarn].
  - destruct (Hk any_warning) as (shown & Hrun & Hwarn & Hnone).
    exists shown. cbn. rewrite Hrun. cbn.
    split; [reflexivity|]. split; [exact Hwarn | exact Hnone].
Qed.

(** The last check looks at the end-timestamp column only when one is
    selected. *)
Lemma run_of_checks_end_column (df : dataframe) (selected : option string) body :
  run_of_checks
    match selected with
    | Some timestamp_end_column =>
        negb (String.eqb (dtype df timestamp_end_column) "datetime64[ns]")
    | None => false
    end
    (fun any_warning =>
       any_warning ← match selected with
         | Some timestamp_end_column =>
             warn_if (negb (String.eqb (dtype df timestamp_end_column) "datetime64[ns]"))
               body any_warning
         | None => mret any_warning
         end;
       mret any_warning).
Proof using Type.
  destruct selected as [timestamp_end_column|].
  - pose proof (run_of_checks_warn_if
                  (negb (String.eqb (dtype df timestamp_end_column) "datetime64[ns]"))
                  body false _ run_of_checks_end) as Hlast.
    rewrite orb_false_r in Hlast. exact Hlast.
  - exact run_of_checks_end.
Qed.

(** The checks raise nothing, show warnings only, and end with the flag
    set exactly when one was shown, which is when two selected columns
    collide or a timestamp column is not a datetime column. *)
Lemma check_selection_spec (df : dataframe) (sel : selection) :
  exists shown,
    check_selection df sel = (shown, Ok (columns_collide sel || not_datetime df sel)) /\
    Forall is_warning shown /\
    (shown = [] <-> columns_collide sel || not_datetime df sel = false).
Proof using Type.
  unfold check_selection, columns_collide, not_datetime. cbv zeta.
  rewrite <- !orb_assoc.
  refine (run_of_checks_warn_if _ _ _ _ _ false).
  do 6 eapply run_of_checks_warn_if.
  apply run_of_checks_end_column.
Qed.

(** C4: when two of the selected columns are the same column, or a
    selected timestamp column is not of dtype datetime64[ns], the block
    shows at least one warning, does not call the conversion and leaves
    [log] unset; otherwise it shows no warning and [log] is what the
    conversion returns. *)
Theorem warnings_block_conversion (df : dataframe) (sel : selection) :
  (columns_collide sel || not_datetime df sel = true ->
   exists shown,
     convert_to_event_log df sel = (shown, Ok None) /\
     shown <> [] /\ Forall is_warning shown) /\
  (columns_collide sel || not_datetime df sel = false ->
   convert_to_event_log df sel =
     (new_log ← load_event_log_from_dataframe df (case_column sel) (activity_column sel)
        (timestamp_start_column sel) (timestamp_end_column sel);
      mret (Some new_log))) /\
  (forall shown new_log,
      convert_to_event_log df sel = (shown, Ok (Some new_log)) ->
      Forall (fun w => ~ is_warning w) shown).
Proof using Type.
  destruct (check_selection_spec df sel) as (warnings & Hcheck & Hwarn & Hnone).
  unfold convert_to_event_log. rewrite Hcheck.
  destruct (columns_collide sel || not_datetime df sel) eqn:Hflag.
  - split; [|split].
    + intros _. exists warnings. cbn. rewrite app_nil_r.
      repeat split; [|exact Hwarn].
      intros ->. destruct Hnone as [Hnone _]. discriminate Hnone. reflexivity.
    + intros H. discriminate H.
    + intros shown new_log. cbn. intros H. discriminate H.
  - destruct Hnone as [_ ->]; [|reflexivity].
    split; [|split].
    + intros H. discriminate H.
    + intros _. cbn.
      destruct (load_event_log_from_dataframe _ _ _ _ _) as [called [l|e]]; reflexivity.
    + intros shown new_log. cbn.
      unfold load_event_log_from_dataframe, pm4py_format_dataframe, lift.
      destruct (timestamp_end_column sel) as [timestamp_end|]; cbn.
      * destruct (for_each _ _ _) as [new_data|e]; cbn; [|discriminate].
        destruct (pd_DataFrame new_data) as [df_new|e]; cbn; [|discriminate].
        destruct (format_dataframe _ _ _ _); cbn; [|discriminate].
        intros [= <- _]. constructor; [intros [] | constructor].
      * destruct (format_dataframe _ _ _ _); cbn; [|discriminate].
        intros [= <- _]. constructor; [intros [] | constructor].
Qed.

Section Split.

Variables case_column activity_column timestamp_column : string.
Hypothesis case_activity : case_column <> activity_column.
Hypothesis case_timestamp : case_column <> timestamp_column.
Hypothesis activity_timestamp : activity_column <> timestamp_column.

Local Abbreviation columns := (three_columns case_column activity_column timestamp_column).

Lemma append_to_case cases activities timestamps v :
  append_to (columns cases activities timestamps) case_column v
  = Ok (columns (cases ++ [v]) activities timestamps).
Proof.
  unfold append_to, three_columns. rewrite lookup_insert_eq, insert_insert_eq.
  reflexivity.
Qed.

Lemma append_to_activity cases activities timestamps v :
  append_to (columns cases activities timestamps) activity_column v
  = Ok (columns cases (activities ++ [v]) timestamps).
Proof.
  unfold append_to, three_columns.
  rewrite lookup_insert_ne, lookup_insert_eq by congruence.
  rewrite (insert_insert_ne _ activity_column case_column) by congruence.
  rewrite insert_insert_eq. reflexivity.
Qed.

Lemma append_to_timestamp cases activities timestamps v :
  append_to (columns cases activities timestamps) timestamp_column v
  = Ok (columns cases activities (timestamps ++ [v])).
Proof.
  unfold append_to, three_columns.
  rewrite !lookup_insert_ne, lookup_insert_eq by congruence.
  rewrite (insert_insert_ne _ timestamp_column case_column) by congruence.
  rewrite (insert_insert_ne _ timestamp_column activity_column) by congruence.
  rewrite insert_insert_eq. reflexivity.
Qed.

(** One turn of the loop puts two cells at the end of each list. *)
Lemma split_row_spec timestamp_end_column cases activities timestamps
    (r : row) vc va vt vte :
  r !! case_column = Some vc ->
  r !! activity_column = Some va ->
  r !! timestamp_column = Some vt ->
  r !! timestamp_end_column = Some vte ->
  split_row case_column activity_column timestamp_column timestamp_end_column
    (columns cases activities timestamps) r
  = Ok (columns (cases ++ [vc; vc])
                (activities ++ [PyStr (str va +:+ "_start"); PyStr (str va +:+ "_end")])
                (timestamps ++ [vt; vte])).
Proof.
  intros Hc Ha Ht Hte. unfold split_row, getitem.
  rewrite Hc, Ha, Ht, Hte. cbn.
  rewrite append_to_case. cbn. rewrite append_to_activity. cbn.
  rewrite append_to_timestamp. cbn. rewrite append_to_case. cbn.
  rewrite append_to_activity. cbn. rewrite append_to_timestamp.
  rewrite <- !app_assoc. reflexivity.
Qed.

(** The loop over the rows: each list grows by two cells per row, in the
    order of the rows. *)
Lemma split_rows_spec timestamp_end_column (df : dataframe) :
  Forall (has_columns case_column activity_column timestamp_column timestamp_end_column) df ->
  forall cases activities timestamps,
  exists cases' activities' timestamps',
    for_each (split_row case_column activity_column timestamp_column timestamp_end_column)
      df (columns cases activities timestamps)
    = Ok (columns (cases ++ cases') (activities ++ activities') (timestamps ++ timestamps')) /\
    length cases' = 2 * length df /\
    length activities' = 2 * length df /\
    length timestamps' = 2 * length df /\
    forall i (r : row) vc va vt vte,
      df !! i = Some r ->
      r !! case_column = Some vc -> r !! activity_column = Some va ->
      r !! timestamp_column = Some vt -> r !! timestamp_end_column = Some vte ->
      (cases' !! (2 * i) = Some vc /\
       activities' !! (2 * i) = Some (PyStr (str va +:+ "_start")) /\
       timestamps' !! (2 * i) = Some vt) /\
      (cases' !! (2 * i + 1) = Some vc /\
       activities' !! (2 * i + 1) = Some (PyStr (str va +:+ "_end")) /\
       timestamps' !! (2 * i + 1) = Some vte).
Proof.
  induction 1 as [|r df Hr Hdf IH]; intros cases activities timestamps.
  - exists [], [], []. rewrite !app_nil_r. repeat split; try reflexivity.
    all: intros; discriminate.
  - destruct Hr as ([vc Hc] & [va Ha] & [vt Ht] & [vte Hte]).
    cbn [for_each]. rewrite (split_row_spec _ _ _ _ r vc va vt vte Hc Ha Ht Hte).
    cbn [mbind result_bind].
    destruct (IH (cases ++ [vc; vc])
                 (activities ++ [PyStr (str va +:+ "_start"); PyStr (str va +:+ "_end")])
                 (timestamps ++ [vt; vte]))
      as (cases' & activities' & timestamps' & Hrun & Hlc & Hla & Hlt & Hcells).
    exists ([vc; vc] ++ cases'),
           ([PyStr (str va +:+ "_start"); PyStr (str va +:+ "_end")] ++ activities'),
           ([vt; vte] ++ timestamps').
    rewrite Hrun, !app_assoc.
    split; [reflexivity|].
    rewrite !length_app, Hlc, Hla, Hlt. cbn [length].
    repeat (split; [lia|]).
    intros [|i] r' vc' va' vt' vte' Hi Hc' Ha' Ht' Hte'.
    + injection Hi as <-.
      rewrite Hc in Hc'. rewrite Ha in Ha'. rewrite Ht in Ht'. rewrite Hte in Hte'.
      injection Hc' as <-. injection Ha' as <-. injection Ht' as <-. injection Hte' as <-.
      repeat split; reflexivity.
    + replace (2 * S i) with (S (S (2 * i))) by lia.
      replace (S (S (2 * i)) + 1) with (S (S (2 * i + 1))) by lia.
      exact (Hcells i r' vc' va' vt' vte' Hi Hc' Ha' Ht' Hte').
Qed.

(** The dataframe of three equally long lists has one row per position. *)
Lemma pd_DataFrame_three_columns cases activities timestamps n :
  length cases = n -> length activities = n -> length timestamps = n ->
  exists events,
    pd_DataFrame (columns cases activities timestamps) = Ok events /\
    length events = n /\
    forall i vc va vt,
      cases !! i = Some vc -> activities !! i = Some va -> timestamps !! i = Some vt ->
      events !! i
      = Some (<[case_column := vc]> (<[activity_column := va]>
                (<[timestamp_column := vt]> ∅))).
Proof.
  intros Hlc Hla Hlt. unfold pd_DataFrame.
  assert (Hall : map_Forall (fun _ c => length c = n) (columns cases activities timestamps)).
  { unfold three_columns. repeat (apply map_Forall_insert_2; [assumption|]).
    apply map_Forall_empty. }
  destruct (map_to_list (columns cases activities timestamps)) as [|[k column] rest] eqn:Hlist.
  { apply map_to_list_empty_iff in Hlist.
    assert (Hlookup : columns cases activities timestamps !! case_column = Some cases)
      by apply lookup_insert_eq.
    rewrite Hlist, lookup_empty in Hlookup. discriminate Hlookup. }
  assert (Hcolumn : length column = n).
  { apply (Hall k). apply elem_of_map_to_list. rewrite Hlist. apply list_elem_of_here. }
  rewrite Hcolumn, decide_True by exact Hall.
  eexists. split; [reflexivity|]. split.
  - rewrite length_fmap, length_seq. reflexivity.
  - intros i vc va vt Hc Ha Ht.
    assert (Hi : i < n) by (rewrite <- Hlc; apply lookup_lt_Some with vc; exact Hc).
    rewrite list_lookup_fmap, lookup_seq_lt by exact Hi. cbn. f_equal.
    unfold three_columns.
    rewrite (omap_insert_Some _ _ _ _ vc) by exact Hc.
    rewrite (omap_insert_Some _ _ _ _ va) by exact Ha.
    rewrite (omap_insert_Some _ _ _ _ vt) by exact Ht.
    rewrite omap_empty. reflexivity.
Qed.

End Split.

(** The rows of [df.iterrows()]: as many as the dataframe has, with the
    same labels, each cell as the upcast leaves it. *)
Lemma iterrows_length (df : dataframe) : length (iterrows df) = length df.
Proof using Type. apply length_fmap. Qed.



Lemma iterrows_has_columns (df : dataframe)
    (case_column activity_column timestamp_column timestamp_end_column : string) :
  Forall (has_columns case_column activity_column timestamp_column timestamp_end_column) df ->
  Forall (has_columns case_column activity_column timestamp_column timestamp_end_column)
    (iterrows df).
Proof using Type.
  intros Hrows. unfold iterrows. apply Forall_fmap.
  apply (Forall_impl _ _ _ Hrows).
  intros r (Hc & Ha & Ht & Hte). unfold has_columns, compose.
  rewrite !lookup_fmap, !fmap_is_Some. repeat split; assumption.
Qed.

Lemma for_each_app {S A : Type} (body : S -> A -> result exn S) (l1 l2 : list A) (s : S) :
  for_each body (l1 ++ l2) s = (s' ← for_each body l1 s; for_each body l2 s').
Proof using Type.
  revert s. induction l1 as [|x l1 IH]; intros s; cbn; [reflexivity|].
  destruct (body s x) as [s1|e]; cbn; [apply IH | reflexivity].
Qed.

(** What the function returns once the table of events is built. *)
Lemma load_event_log_built (df events : dataframe)
    (case_column activity_column timestamp_column timestamp_end_column : string)
    (new_data : gmap string (list object)) :
  for_each (split_row case_column activity_column timestamp_column timestamp_end_column)
    (iterrows df)
    (three_columns case_column activity_column timestamp_column [] [] []) = Ok new_data ->
  pd_DataFrame new_data = Ok events ->
  load_event_log_from_dataframe df case_column activity_column timestamp_column
    (Some timestamp_end_column)
  = ([call_format_dataframe events case_column activity_column timestamp_column],
     format_dataframe events case_column activity_column timestamp_column).
Proof using Type.
  intros Hloop Hframe.
  unfold load_event_log_from_dataframe, pm4py_format_dataframe, lift.
  fold (three_columns case_column activity_column timestamp_column [] [] []).
  rewrite Hloop. cbn. rewrite Hframe. cbn.
  destruct (format_dataframe _ _ _ _); reflexivity.
Qed.

(** What the function returns when the loop or the table raises. *)
Lemma load_event_log_raised (df : dataframe)
    (case_column activity_column timestamp_column timestamp_end_column : string) (e : exn) :
  (new_data ← for_each
     (split_row case_column activity_column timestamp_column timestamp_end_column)
     (iterrows df)
     (three_columns case_column activity_column timestamp_column [] [] []);
   pd_DataFrame new_data) = Raise e ->
  load_event_log_from_dataframe df case_column activity_column timestamp_column
    (Some timestamp_end_column)
  = ([], Raise e).
Proof using Type.
  intros Hraise.
  unfold load_event_log_from_dataframe, pm4py_format_dataframe, lift.
  fold (three_columns case_column activity_column timestamp_column [] [] []).
  destruct (for_each _ _ _) as [new_data|e1]; cbn in *.
  - rewrite Hraise. reflexivity.
  - congruence.
Qed.


(** *** More on the conversion *)

(** X7: with an end-timestamp column, every event row has the three
    columns and no other: the end-timestamp column and all further columns
    of the input are not in the table that goes to the formatter. *)
Theorem split_keeps_three_columns (df : dataframe)
    (case_column activity_column timestamp_column timestamp_end_column : string) :
  case_column <> activity_column ->
  case_column <> timestamp_column ->
  activity_column <> timestamp_column ->
  Forall (has_columns case_column activity_column timestamp_column timestamp_end_column) df ->
  exists events,
    load_event_log_from_dataframe df case_column activity_column timestamp_column
      (Some timestamp_end_column)
    = ([call_format_dataframe events case_column activity_column timestamp_column],
       format_dataframe events case_column activity_column timestamp_column) /\
    forall j (ev : row) key,
      events !! j = Some ev ->
      is_Some (ev !! key) <->
      key = case_column \/ key = activity_column \/ key = timestamp_column.
Proof using Type.
  intros Hca Hct Hat Hrows.
  destruct (split_rows_spec case_column activity_column timestamp_column
              Hca Hct Hat timestamp_end_column (iterrows df)
              (iterrows_has_columns _ _ _ _ _ Hrows) [] [] [])
    as (cases & activities & timestamps & Hloop & Hlc & Hla & Hlt & _).
  rewrite iterrows_length in Hlc, Hla, Hlt.
  destruct (pd_DataFrame_three_columns case_column activity_column timestamp_column
              cases activities timestamps (2 * length df) Hlc Hla Hlt)
    as (events & Hframe & Hlen & Hevents).
  exists events. split; [exact (load_event_log_built _ _ _ _ _ _ _ Hloop Hframe)|].
  intros j ev key Hj.
  assert (Hlt' : j < 2 * length df) by (rewrite <- Hlen; eapply lookup_lt_Some; exact Hj).
  destruct (lookup_lt_is_Some_2 cases j ltac:(lia)) as [vc Hvc].
  destruct (lookup_lt_is_Some_2 activities j ltac:(lia)) as [va Hva].
  destruct (lookup_lt_is_Some_2 timestamps j ltac:(lia)) as [vt Hvt].
  rewrite (Hevents j vc va vt Hvc Hva Hvt) in Hj. injection Hj as <-.
  rewrite !lookup_insert, lookup_empty.
  destruct (decide (case_column = key)) as [<-|Hc];
    [split; [intros _; left; reflexivity | intros _; eexists; reflexivity]|].
  destruct (decide (activity_column = key)) as [<-|Ha];
    [split; [intros _; right; left; reflexivity | intros _; eexists; reflexivity]|].
  destruct (decide (timestamp_column = key)) as [<-|Ht];
    [split; [intros _; right; right; reflexivity | intros _; eexists; reflexivity]|].
  split; [intros [v Hv]; discriminate Hv | intros [ -> | [ -> | -> ] ]; congruence].
Qed.


(** An append under a key that is there: the other keys stay, and the
    list under the key is one cell longer. *)
Lemma append_to_len (data : gmap string (list object)) (key : string) (v : object) :
  is_Some (data !! key) ->
  exists data',
    append_to data key v = Ok data' /\
    (forall k, is_Some (data !! k) -> is_Some (data' !! k)) /\
    (forall k, len_at data' k = len_at data k + (if decide (k = key) then 1 else 0)) /\
    forall k, data !! k = None -> data' !! k = None.
Proof using Type.
  intros [column Hcolumn]. unfold append_to. rewrite Hcolumn.
  eexists. split; [reflexivity|]. split; [|split].
  - intros k Hk. rewrite lookup_insert. destruct (decide (key = k)); [eauto | exact Hk].
  - intros k. unfold len_at. rewrite lookup_insert.
    destruct (decide (key = k)) as [<-|Hne].
    + rewrite decide_True by reflexivity. rewrite Hcolumn. cbn.
      rewrite length_app. reflexivity.
    + rewrite decide_False by congruence. lia.
  - intros k Hk. rewrite lookup_insert.
    destruct (decide (key = k)) as [<-|_]; [congruence | exact Hk].
Qed.

(** A row without a cell under one of the four labels ends the loop with
    a [KeyError] for a label it has no cell under, whatever the three
    labels of the lists are. *)
Lemma split_row_missing
    (case_column activity_column timestamp_column timestamp_end_column : string)
    (data : gmap string (list object)) (r : row) :
  is_Some (data !! case_column) -> is_Some (data !! activity_column) ->
  is_Some (data !! timestamp_column) ->
  ~ has_columns case_column activity_column timestamp_column timestamp_end_column r ->
  exists key,
    (key = case_column \/ key = activity_column \/
     key = timestamp_column \/ key = timestamp_end_column) /\
    r !! key = None /\
    split_row case_column activity_column timestamp_column timestamp_end_column data r
    = Raise (KeyError key).
Proof using Type.
  intros Hdc Hda Hdt Hmissing. unfold has_columns in Hmissing. unfold split_row, getitem.
  destruct (r !! case_column) as [vc|] eqn:Hc.
  2:{ exists case_column. split; [left; reflexivity|]. split; [exact Hc | reflexivity]. }
  cbn.
  destruct (append_to_len data case_column vc Hdc) as (d1 & -> & Hk1 & _). cbn.
  destruct (r !! activity_column) as [va|] eqn:Ha.
  2:{ exists activity_column. split; [right; left; reflexivity|].
      split; [exact Ha | reflexivity]. }
  cbn.
  destruct (append_to_len d1 activity_column (PyStr (str va +:+ "_start")) (Hk1 _ Hda))
    as (d2 & -> & Hk2 & _). cbn.
  destruct (r !! timestamp_column) as [vt|] eqn:Ht.
  2:{ exists timestamp_column. split; [right; right; left; reflexivity|].
      split; [exact Ht | reflexivity]. }
  cbn.
  destruct (append_to_len d2 timestamp_column vt (Hk2 _ (Hk1 _ Hdt)))
    as (d3 & -> & Hk3 & _). cbn.
  destruct (append_to_len d3 case_column vc (Hk3 _ (Hk2 _ (Hk1 _ Hdc))))
    as (d4 & -> & Hk4 & _). cbn.
  destruct (append_to_len d4 activity_column (PyStr (str va +:+ "_end"))
              (Hk4 _ (Hk3 _ (Hk2 _ (Hk1 _ Hda)))))
    as (d5 & -> & _ & _). cbn.
  destruct (r !! timestamp_end_column) as [vte|] eqn:Hte.
  { destruct Hmissing. repeat split; eexists; reflexivity. }
  exists timestamp_end_column. split; [right; right; right; reflexivity|].
  split; [exact Hte | reflexivity].
Qed.

(** X8: with an end-timestamp column and a dataframe that has a row, a
    selected label that is no column of the dataframe makes the function
    raise [KeyError] for such a label at the first row, whatever the other
    labels are; the formatter is not called. *)
Theorem split_missing_column (df : dataframe) (columns : gset string)
    (case_column activity_column timestamp_column timestamp_end_column : string) :
  df <> [] ->
  columns_of df columns ->
  ~ (case_column ∈ columns /\ activity_column ∈ columns /\
     timestamp_column ∈ columns /\ timestamp_end_column ∈ columns) ->
  exists key,
    (key = case_column \/ key = activity_column \/
     key = timestamp_column \/ key = timestamp_end_column) /\
    (key ∉ columns) /\
    load_event_log_from_dataframe df
      case_column activity_column timestamp_column (Some timestamp_end_column)
    = ([], Raise (KeyError key)).
Proof using Type.
  intros Hdf Hcolumns Hmissing.
  destruct df as [|r rest]; [congruence|].
  apply Forall_cons in Hcolumns as [Hr _].
  set (data := three_columns case_column activity_column timestamp_column [] [] []).
  assert (Hkeys : is_Some (data !! case_column) /\ is_Some (data !! activity_column) /\
                  is_Some (data !! timestamp_column)).
  { subst data. unfold three_columns. rewrite !lookup_insert.
    repeat split; repeat case_decide; eauto; congruence. }
  destruct Hkeys as (Hdc & Hda & Hdt).
  destruct (split_row_missing case_column activity_column timestamp_column
              timestamp_end_column data (upcast (r :: rest) <$> r) Hdc Hda Hdt)
    as (key & Hkey & Hnone & Hraise).
  { intros (Hc & Ha & Ht & Hte). apply Hmissing.
    rewrite !lookup_fmap, !fmap_is_Some in Hc, Ha, Ht, Hte.
    rewrite <- Hr. rewrite !elem_of_dom. repeat split; assumption. }
  exists key. split; [exact Hkey|]. split.
  - rewrite <- Hr, elem_of_dom. rewrite lookup_fmap, fmap_None in Hnone.
    rewrite Hnone. intros [v Hv]. discriminate Hv.
  - apply load_event_log_raised. fold data.
    unfold iterrows. cbn [fmap list_fmap for_each].
    rewrite Hraise. reflexivity.
Qed.

(** One turn of the loop, whatever the three labels are. *)
Lemma split_row_len
    (case_column activity_column timestamp_column timestamp_end_column : string)
    (data : gmap string (list object)) (r : row) :
  is_Some (data !! case_column) -> is_Some (data !! activity_column) ->
  is_Some (data !! timestamp_column) ->
  has_columns case_column activity_column timestamp_column timestamp_end_column r ->
  exists data',
    split_row case_column activity_column timestamp_column timestamp_end_column data r
    = Ok data' /\
    (forall k, is_Some (data !! k) -> is_Some (data' !! k)) /\
    (forall k, len_at data' k
               = len_at data k + cells_per_row case_column activity_column timestamp_column k) /\
    forall k, data !! k = None -> data' !! k = None.
Proof using Type.
  intros Hdc Hda Hdt ([vc Hc] & [va Ha] & [vt Ht] & [vte Hte]).
  unfold split_row, getitem. rewrite Hc, Ha, Ht, Hte. cbn.
  destruct (append_to_len data case_column vc Hdc) as (d1 & -> & Hk1 & Hl1 & Hn1). cbn.
  destruct (append_to_len d1 activity_column (PyStr (str va +:+ "_start")) (Hk1 _ Hda))
    as (d2 & -> & Hk2 & Hl2 & Hn2). cbn.
  destruct (append_to_len d2 timestamp_column vt (Hk2 _ (Hk1 _ Hdt)))
    as (d3 & -> & Hk3 & Hl3 & Hn3). cbn.
  destruct (append_to_len d3 case_column vc (Hk3 _ (Hk2 _ (Hk1 _ Hdc))))
    as (d4 & -> & Hk4 & Hl4 & Hn4). cbn.
  destruct (append_to_len d4 activity_column (PyStr (str va +:+ "_end"))
              (Hk4 _ (Hk3 _ (Hk2 _ (Hk1 _ Hda)))))
    as (d5 & -> & Hk5 & Hl5 & Hn5). cbn.
  destruct (append_to_len d5 timestamp_column vte
              (Hk5 _ (Hk4 _ (Hk3 _ (Hk2 _ (Hk1 _ Hdt))))))
    as (d6 & -> & Hk6 & Hl6 & Hn6).
  exists d6. split; [reflexivity|]. split; [|split].
  - intros k Hk. apply Hk6, Hk5, Hk4, Hk3, Hk2, Hk1, Hk.
  - intros k. rewrite Hl6, Hl5, Hl4, Hl3, Hl2, Hl1. unfold cells_per_row.
    destruct (decide (k = case_column)), (decide (k = activity_column)),
      (decide (k = timestamp_column)); lia.
  - intros k Hk. apply Hn6, Hn5, Hn4, Hn3, Hn2, Hn1, Hk.
Qed.

(** The whole loop: each label gets two cells per row for every time it
    occurs among the three, and no list is added. *)
Lemma split_rows_len
    (case_column activity_column timestamp_column timestamp_end_column : string)
    (df : dataframe) :
  Forall (has_columns case_column activity_column timestamp_column timestamp_end_column) df ->
  forall data,
    is_Some (data !! case_column) -> is_Some (data !! activity_column) ->
    is_Some (data !! timestamp_column) ->
    exists data',
      for_each (split_row case_column activity_column timestamp_column timestamp_end_column)
        df data = Ok data' /\
      (forall k, is_Some (data !! k) -> is_Some (data' !! k)) /\
      (forall k, len_at data' k
                 = len_at data k
                   + length df * cells_per_row case_column activity_column timestamp_column k) /\
      forall k, data !! k = None -> data' !! k = None.
Proof using Type.
  induction 1 as [|r df Hr Hdf IH]; intros data Hdc Hda Hdt.
  - exists data. split; [reflexivity|]. split; [trivial|]. split; [|trivial].
    intros k. cbn. lia.
  - destruct (split_row_len _ _ _ _ data r Hdc Hda Hdt Hr) as (d1 & Hrow & Hk1 & Hl1 & Hn1).
    destruct (IH d1 (Hk1 _ Hdc) (Hk1 _ Hda) (Hk1 _ Hdt)) as (d2 & Hrest & Hk2 & Hl2 & Hn2).
    exists d2. cbn [for_each]. rewrite Hrow. cbn [mbind result_bind].
    split; [exact Hrest|]. split; [|split].
    + intros k Hk. apply Hk2, Hk1, Hk.
    + intros k. rewrite Hl2, Hl1. cbn [length]. lia.
    + intros k Hk. apply Hn2, Hn1, Hk.
Qed.


(** Lists of different lengths make no dataframe. *)
Lemma pd_DataFrame_ragged (data : gmap string (list object)) (k1 k2 : string) :
  is_Some (data !! k1) -> is_Some (data !! k2) ->
  len_at data k1 <> len_at data k2 ->
  pd_DataFrame data = Raise (ValueError "All arrays must be of the same length").
Proof using Type.
  intros [l1 H1] [l2 H2]. unfold len_at. rewrite H1, H2. cbn. intros Hne.
  unfold pd_DataFrame.
  destruct (map_to_list data) as [|[k column] rest] eqn:Hlist.
  { apply map_to_list_empty_iff in Hlist. rewrite Hlist, lookup_empty in H1.
    discriminate H1. }
  rewrite decide_False; [reflexivity|].
  intros Hall. apply Hne.
  rewrite (Hall k1 l1 H1), (Hall k2 l2 H2). reflexivity.
Qed.

(** X9: with an end-timestamp column and a dataframe that has a row, the
    function raises [ValueError] when exactly two of the three column
    labels are the same: the list of the doubled label gets four cells per
    row, the other list two, and no dataframe can be made of them.  The
    formatter is not called. *)
Theorem split_colliding_labels (df : dataframe)
    (case_column activity_column timestamp_column timestamp_end_column : string) :
  (case_column = activity_column /\ activity_column <> timestamp_column) \/
  (case_column = timestamp_column /\ case_column <> activity_column) \/
  (activity_column = timestamp_column /\ case_column <> activity_column) ->
  df <> [] ->
  Forall (has_columns case_column activity_column timestamp_column timestamp_end_column) df ->
  load_event_log_from_dataframe df case_column activity_column timestamp_column
    (Some timestamp_end_column)
  = ([], Raise (ValueError "All arrays must be of the same length")).
Proof using Type.
  intros Hcollide Hdf Hrows. apply load_event_log_raised.
  set (data := three_columns case_column activity_column timestamp_column [] [] []).
  assert (Hkeys : is_Some (data !! case_column) /\ is_Some (data !! activity_column) /\
                  is_Some (data !! timestamp_column)).
  { subst data. unfold three_columns. rewrite !lookup_insert.
    repeat split; repeat case_decide; eauto; congruence. }
  assert (Hempty : forall k, len_at data k = 0).
  { intros k. subst data. unfold len_at, three_columns.
    rewrite !lookup_insert, lookup_empty. repeat case_decide; reflexivity. }
  destruct Hkeys as (Hdc & Hda & Hdt).
  destruct (split_rows_len _ _ _ _ (iterrows df) (iterrows_has_columns _ _ _ _ _ Hrows)
              data Hdc Hda Hdt) as (data' & -> & Hk & Hl & _).
  rewrite iterrows_length in Hl.
  cbn [mbind result_bind].
  assert (Hn : 0 < length df) by (destruct df; [congruence | cbn; lia]).
  assert (Hlen : forall k, len_at data' k
                 = length df * cells_per_row case_column activity_column timestamp_column k).
  { intros k. rewrite Hl, Hempty. reflexivity. }
  destruct Hcollide as [[Heq Hne] | [[Heq Hne] | [Heq Hne]]].
  - apply (pd_DataFrame_ragged data' case_column timestamp_column); [auto..|].
    rewrite !Hlen. unfold cells_per_row. subst activity_column.
    repeat case_decide; try congruence; nia.
  - apply (pd_DataFrame_ragged data' case_column activity_column); [auto..|].
    rewrite !Hlen. unfold cells_per_row. subst timestamp_column.
    repeat case_decide; try congruence; nia.
  - apply (pd_DataFrame_ragged data' case_column activity_column); [auto..|].
    rewrite !Hlen. unfold cells_per_row. subst timestamp_column.
    repeat case_decide; try congruence; nia.
Qed.

(** *** More on the page *)

(** X10: with an example selected, the uploaded file is not read: the load
    phase shows its three opening elements (and a hint for the second
    example), calls no reader, and gives the example table of 21 or of 17
    rows. *)
Theorem examples_ignore_upload (uploaded_file : option workbook) :
  (exists df,
      load_data "Load example data 1 - Purchase orders" uploaded_file
      = (load_header, Ok (Some df)) /\ length df = 21) /\
  (exists df,
      load_data "Load example data 2 - Tablet production" uploaded_file
      = (load_header ++
         [st_info "Try to set timestamp_end columns to 'timestamp_end to see how the activities are automatically split into start/end."],
         Ok (Some df)) /\ length df = 17).
Proof using Type.
  destruct example_tables as [(df1 & Hdf1 & Hlen1) (df2 & Hdf2 & Hlen2)].
  split.
  - exists df1. split; [|exact Hlen1].
    unfold load_data, lift. rewrite Hdf1. reflexivity.
  - exists df2. split; [|exact Hlen2].
    unfold load_data, lift. rewrite Hdf2. reflexivity.
Qed.

(** X11: with the file procedure selected and no file uploaded there is
    no dataframe and nothing but the header and the uploader is shown;
    with a file whose load gives a dataframe, the page displays the
    success message after the uploader and the dataframe of the run is
    the loaded one. *)
Theorem file_load_outcomes :
  load_data "Load from file" None = (load_header ++ [the_file_uploader], Ok None) /\
  forall (uploaded_file : workbook) df,
    snd (load_file_to_dataframe uploaded_file) = Ok df ->
    displayed (fst (load_data "Load from file" (Some uploaded_file)))
    = load_header ++ [the_file_uploader; st_success "File loaded successfully!"] /\
    snd (load_data "Load from file" (Some uploaded_file)) = Ok (Some df).
Proof using Type.
  split; [reflexivity|].
  intros uploaded_file df Hload. unfold load_data.
  unfold load_file_to_dataframe, pd_read_excel in *. cbn in Hload.
  destruct (uploaded_file !! 0) as [first|]; cbn in *.
  - destruct (parse_sheet first) as [loaded|e]; cbn in *; [|discriminate Hload].
    injection Hload as ->. split; reflexivity.
  - discriminate Hload.
Qed.

(** How a run goes on after a step that returned, and after one that
    raised. *)
Lemma ui_bind_ok {A B} (m : UI A) (k : A -> UI B) shown a :
  m = (shown, Ok a) -> (m ≫= k) = (shown ++ fst (k a), snd (k a)).
Proof using Type.
  intros ->. cbn. destruct (k a). reflexivity.
Qed.

Lemma ui_bind_raise {A B} (m : UI A) (k : A -> UI B) shown e :
  m = (shown, Raise e) -> (m ≫= k) = (shown, Raise e).
Proof using Type.
  intros ->. reflexivity.
Qed.

Lemma view_loaded_data_ok (select_load_procedure : string) (df : dataframe) :
  view_loaded_data select_load_procedure df
  = (fst (view_loaded_data select_load_procedure df), Ok tt).
Proof using Type.
  unfold view_loaded_data.
  destruct (String.eqb _ _); [|destruct (30 <? length df)]; reflexivity.
Qed.

Lemma define_columns_ok (chosen : selection) :
  define_columns chosen = (fst (define_columns chosen), Ok chosen).
Proof using Type. reflexivity. Qed.

(** The page after the load phase, for a run that has a dataframe. *)
Lemma page_with_dataframe (select_load_procedure : string) (uploaded_file : option workbook)
    (chosen : dataframe -> selection) shown df :
  load_data select_load_procedure uploaded_file = (shown, Ok (Some df)) ->
  forall rest,
    rest = (log ← convert_to_event_log df (chosen df);
            _ ← match log with
                | Some log => statistics_and_visualizations log
                | None => mret tt
                end;
            _ ← show st_divider;
            _ ← show (st_caption footer);
            mret (Some df, log)) ->
    page select_load_procedure uploaded_file chosen
    = (shown ++ fst (view_loaded_data select_load_procedure df)
         ++ fst (define_columns (chosen df)) ++ fst rest,
       snd rest).
Proof using Type.
  intros Hload rest ->. unfold page.
  rewrite (ui_bind_ok _ _ _ _ Hload). cbv beta iota.
  set (after := fun log : option event_log => _).
  assert (Hsteps :
    ((_ ← view_loaded_data select_load_procedure df;
      sel ← define_columns (chosen df);
      convert_to_event_log df sel) ≫= after)
    = (fst (view_loaded_data select_load_procedure df)
         ++ fst (define_columns (chosen df))
         ++ fst (convert_to_event_log df (chosen df) ≫= after),
       snd (convert_to_event_log df (chosen df) ≫= after))).
  { rewrite (ui_bind_ok (view_loaded_data _ _) _ _ _ (view_loaded_data_ok _ _)).
    cbv beta.
    rewrite (ui_bind_ok (define_columns _) _ _ _ (define_columns_ok _)).
    cbv beta. cbn [fst snd].
    destruct (convert_to_event_log df (chosen df)) as [converted [log|e]].
    - rewrite (ui_bind_ok _ after _ _ eq_refl).
      rewrite (ui_bind_ok _ after (_ ++ _ ++ converted) log eq_refl).
      rewrite <- !app_assoc. reflexivity.
    - rewrite (ui_bind_raise _ after _ _ eq_refl).
      rewrite (ui_bind_raise _ after (_ ++ _ ++ converted) e eq_refl).
      cbn [fst snd]. reflexivity. }
  rewrite Hsteps. cbn [fst snd]. reflexivity.
Qed.

(** X12: when the checks warn, the page shows the preview, the column
    form and the warnings, then the footer: the formatter is not called,
    the statistics are not run, and the run ends with a dataframe and no
    log. *)
Theorem page_with_warnings (select_load_procedure : string) (uploaded_file : option workbook)
    (chosen : dataframe -> selection) shown df :
  load_data select_load_procedure uploaded_file = (shown, Ok (Some df)) ->
  columns_collide (chosen df) || not_datetime df (chosen df) = true ->
  exists warnings,
    warnings <> [] /\ Forall is_warning warnings /\
    page select_load_procedure uploaded_file chosen
    = (shown ++ fst (view_loaded_data select_load_procedure df)
         ++ fst (define_columns (chosen df)) ++ warnings
         ++ [st_divider; st_caption footer],
       Ok (Some df, None)).
Proof using Type.
  intros Hload Hflag.
  destruct (check_selection_spec df (chosen df)) as (warnings & Hcheck & Hwarn & Hnone).
  exists warnings. split; [|split; [exact Hwarn|]].
  - intros ->. destruct Hnone as [Hnone _]. rewrite Hnone in Hflag by reflexivity.
    discriminate Hflag.
  - rewrite (page_with_dataframe _ _ _ _ _ Hload _ eq_refl).
    unfold convert_to_event_log. rewrite Hcheck, Hflag. cbn.
    rewrite !app_nil_r. reflexivity.
Qed.

(** X13: an exception of the conversion is not caught: the run ends with
    it right after the conversion, without statistics and without the
    footer. *)
Theorem page_conversion_raises (select_load_procedure : string)
    (uploaded_file : option workbook) (chosen : dataframe -> selection) shown df e :
  load_data select_load_procedure uploaded_file = (shown, Ok (Some df)) ->
  columns_collide (chosen df) || not_datetime df (chosen df) = false ->
  snd (load_event_log_from_dataframe df (case_column (chosen df))
         (activity_column (chosen df)) (timestamp_start_column (chosen df))
         (timestamp_end_column (chosen df))) = Raise e ->
  page select_load_procedure uploaded_file chosen
  = (shown ++ fst (view_loaded_data select_load_procedure df)
       ++ fst (define_columns (chosen df))
       ++ fst (load_event_log_from_dataframe df (case_column (chosen df))
                 (activity_column (chosen df)) (timestamp_start_column (chosen df))
                 (timestamp_end_column (chosen df))),
     Raise e).
Proof using Type.
  intros Hload Hflag Hraise.
  destruct (check_selection_spec df (chosen df)) as (warnings & Hcheck & _ & Hnone).
  destruct Hnone as [_ Hnone]. specialize (Hnone Hflag). subst warnings.
  rewrite (page_with_dataframe _ _ _ _ _ Hload _ eq_refl).
  unfold convert_to_event_log. rewrite Hcheck, Hflag.
  destruct (load_event_log_from_dataframe _ _ _ _ _) as [called r]. cbn in Hraise.
  subst r. reflexivity.
Qed.

(** X14: when no check warns and the conversion returns a log, the page
    shows, in this order, the load phase, the preview, the column form,
    the one formatter call, what the statistics show, and the footer. *)
Theorem page_with_log (select_load_procedure : string) (uploaded_file : option workbook)
    (chosen : dataframe -> selection) shown df called log stats :
  load_data select_load_procedure uploaded_file = (shown, Ok (Some df)) ->
  columns_collide (chosen df) || not_datetime df (chosen df) = false ->
  load_event_log_from_dataframe df (case_column (chosen df))
    (activity_column (chosen df)) (timestamp_start_column (chosen df))
    (timestamp_end_column (chosen df)) = (called, Ok log) ->
  statistics_and_visualizations log = (stats, Ok tt) ->
  page select_load_procedure uploaded_file chosen
  = (shown ++ fst (view_loaded_data select_load_procedure df)
       ++ fst (define_columns (chosen df)) ++ called ++ stats
       ++ [st_divider; st_caption footer],
     Ok (Some df, Some log)).
Proof using Type.
  intros Hload Hflag Hconvert Hstats.
  destruct (check_selection_spec df (chosen df)) as (warnings & Hcheck & _ & Hnone).
  destruct Hnone as [_ Hnone]. specialize (Hnone Hflag). subst warnings.
  rewrite (page_with_dataframe _ _ _ _ _ Hload _ eq_refl).
  unfold convert_to_event_log. rewrite Hcheck, Hflag, Hconvert. cbn.
  rewrite Hstats. cbn. rewrite !app_nil_r. reflexivity.
Qed.

(** *** The selection the column form starts with *)

Lemma get_loc_lookup (columns : list string) (label : string) :
  label ∈ columns -> columns !! get_loc columns label = Some label.
Proof using Type.
  induction columns as [|c columns IH]; intros Hin.
  - apply elem_of_nil in Hin. destruct Hin.
  - cbn. destruct (String.eqb c label) eqn:Heq.
    + apply String.eqb_eq in Heq. subst c. reflexivity.
    + apply String.eqb_neq in Heq. apply elem_of_cons in Hin as [Hin|Hin];
        [congruence | exact (IH Hin)].
Qed.

(** X15: on a table that has the columns [case_id] and [activity] and one
    of [timestamp] and [timestamp_start], the form starts with these three
    columns selected, [timestamp] before [timestamp_start], and no end
    column; no two of them collide. *)
Theorem initial_selection_named (columns : list string) :
  "case_id" ∈ columns -> "activity" ∈ columns ->
  "timestamp" ∈ columns \/ "timestamp_start" ∈ columns ->
  exists sel,
    initial_selection columns = Some sel /\
    case_column sel = "case_id" /\ activity_column sel = "activity" /\
    timestamp_start_column sel
    = (if bool_decide ("timestamp" ∈ columns) then "timestamp" else "timestamp_start") /\
    timestamp_end_column sel = None /\
    columns_collide sel = false.
Proof using Type.
  intros Hcase Hactivity Htime.
  unfold initial_selection, index_case_column, index_activity_column,
    index_timestamp_start_column.
  rewrite (bool_decide_eq_true_2 _ Hcase), (bool_decide_eq_true_2 _ Hactivity).
  rewrite (get_loc_lookup _ _ Hcase), (get_loc_lookup _ _ Hactivity).
  cbn [mbind option_bind].
  destruct (bool_decide ("timestamp" ∈ columns)) eqn:Hts.
  - apply bool_decide_eq_true in Hts. rewrite get_loc_lookup by assumption.
    eexists. split; [reflexivity|]. repeat split.
  - apply bool_decide_eq_false in Hts. destruct Htime as [Htime|Htime]; [contradiction|].
    rewrite bool_decide_eq_true_2, get_loc_lookup by assumption.
    eexists. split; [reflexivity|]. repeat split.
Qed.

(** X16: on a table that has none of these four columns, the three boxes
    all start at the first column: the first run warns of the three
    collisions and converts nothing. *)
Theorem initial_selection_unnamed (first : string) (others : list string) (df : dataframe) :
  "case_id" ∉ first :: others -> "activity" ∉ first :: others ->
  "timestamp" ∉ first :: others -> "timestamp_start" ∉ first :: others ->
  let sel := {| case_column := first; activity_column := first;
                timestamp_start_column := first; timestamp_end_column := None |} in
  initial_selection (first :: others) = Some sel /\
  exists more,
    convert_to_event_log df sel
    = ([st_warning "Case and activity column should be different";
        st_warning "Case and timestamp start column should be different";
        st_warning "Activity and timestamp start column should be different"] ++ more,
       Ok None).
Proof using Type.
  intros Hcase Hactivity Htime Hstart sel. split.
  - unfold initial_selection, index_case_column, index_activity_column,
      index_timestamp_start_column.
    rewrite !bool_decide_eq_false_2 by assumption. reflexivity.
  - unfold convert_to_event_log, check_selection, warn_if. subst sel. cbn [case_column
      activity_column timestamp_start_column timestamp_end_column].
    rewrite !(bool_decide_eq_true_2 (first = first)) by reflexivity.
    rewrite !(bool_decide_eq_false_2 (Some first = None)) by discriminate.
    destruct (String.eqb (dtype df first) "datetime64[ns]"); eexists; reflexivity.
Qed.

(** X19: an empty dataframe gives an empty table of events, whatever the
    four labels are: the loop has nothing to do, and the formatter is
    called with no rows. *)
Theorem split_empty_dataframe
    (case_column activity_column timestamp_column timestamp_end_column : string) :
  load_event_log_from_dataframe [] case_column activity_column timestamp_column
    (Some timestamp_end_column)
  = ([call_format_dataframe [] case_column activity_column timestamp_column],
     format_dataframe [] case_column activity_column timestamp_column).
Proof using Type.
  apply (load_event_log_built [] []
           case_column activity_column timestamp_column timestamp_end_column
           (three_columns case_column activity_column timestamp_column [] [] []));
    [reflexivity|].
  destruct (pd_DataFrame_length
              (three_columns case_column activity_column timestamp_column [] [] []) 0)
    as (events & Hframe & Hlen).
  - apply insert_non_empty.
  - unfold three_columns. repeat (apply map_Forall_insert_2; [reflexivity|]).
    apply map_Forall_empty.
  - rewrite Hframe. destruct events; [reflexivity | discriminate Hlen].
Qed.

End Page.

(** ** The page properties at sample inputs *)

Lemma split_keeps_three_columns_witness :
  exists events,
    load_event_log_from_dataframe string id id keep_cell unit _ keep_table sample_production
      "case_id" "activity" "timestamp_start" (Some "timestamp_end")
    = ([call_format_dataframe string unit events "case_id" "activity" "timestamp_start"],
       Ok events) /\
    forall ev, events !! 0 = Some ev -> ev !! "timestamp_end" = None.
Proof.
  destruct (split_keeps_three_columns string id id keep_cell unit _ keep_table sample_production
              "case_id" "activity" "timestamp_start" "timestamp_end")
    as (events & Hrun & Hcolumns).
  - discriminate.
  - discriminate.
  - discriminate.
  - repeat constructor; eexists; reflexivity.
  - exists events. split; [exact Hrun|]. intros ev Hev.
    destruct (ev !! "timestamp_end") as [v|] eqn:Hv; [|reflexivity].
    destruct (proj1 (Hcolumns 0 ev "timestamp_end" Hev) ltac:(eauto)) as [H|[H|H]];
      discriminate H.
Defined.



Lemma warnings_block_conversion_witness :
  (exists shown,
      convert_to_event_log string id id sample_dtype keep_cell unit _ keep_table sample_production
        {| case_column := "case_id"; activity_column := "case_id";
           timestamp_start_column := "timestamp_start"; timestamp_end_column := None |}
      = (shown, Ok None) /\ shown <> [] /\ Forall (is_warning string unit) shown) /\
  convert_to_event_log string id id sample_dtype keep_cell unit _ keep_table sample_production
    {| case_column := "case_id"; activity_column := "activity";
       timestamp_start_column := "timestamp_start"; timestamp_end_column := None |}
  = ([call_format_dataframe string unit sample_production "case_id" "activity" "timestamp_start"],
     Ok (Some sample_production)).
Proof.
  split.
  - apply (warnings_block_conversion string id id sample_dtype keep_cell unit _ keep_table). reflexivity.
  - rewrite (proj1 (proj2 (warnings_block_conversion string id id sample_dtype keep_cell unit _ keep_table
                      sample_production _))); reflexivity.
Defined.

Lemma failed_file_load_witness :
  load_data string id id unit locked_sheet "Load from file" (Some [tt])
  = (shown_after_failed_load string unit [tt] (Exception "Network Error"), Ok None).
Proof.
  apply (failed_file_load string id id id sample_dtype keep_cell unit locked_sheet _ keep_table
           (fun _ => ([], Ok tt)) "" [tt]
           (fun _ => {| case_column := "case_id"; activity_column := "activity";
                        timestamp_start_column := "timestamp_start";
                        timestamp_end_column := None |})).
  reflexivity.
Defined.

Lemma preview_ignores_load_procedure_witness :
  view_loaded_data string unit "Load example data 2 - Tablet production" sample_production
  = ([st_expander string unit "View loaded data"; st_subheader string unit "Data table";
      st_text string unit "All data is shown below.";
      st_dataframe string unit sample_production],
     Ok tt).
Proof.
  apply (preview_ignores_load_procedure string unit
           "Load example data 2 - Tablet production" sample_production).
  unfold load_procedures. do 2 apply list_elem_of_further. apply list_elem_of_here.
Defined.

Lemma split_missing_column_witness :
  load_event_log_from_dataframe string id id keep_cell unit _ keep_table sample_production
    "case_id" "activity" "timestamp_start" (Some "timestamp_stop")
  = ([], Raise (KeyError "timestamp_stop")).
Proof.
  destruct (split_missing_column string id id keep_cell unit _ keep_table sample_production
              (list_to_set ["case_id"; "activity"; "timestamp_start"; "timestamp_end"])
              "case_id" "activity" "timestamp_start" "timestamp_stop")
    as (key & Hkey & Hnot & Hrun).
  - discriminate.
  - repeat constructor; apply (bool_decide_unpack _); vm_compute; exact I.
  - intros (_ & _ & _ & Hin). revert Hin. apply (bool_decide_unpack _).
    vm_compute. exact I.
  - destruct Hkey as [ -> | [ -> | [ -> | -> ] ] ]; [exfalso; apply Hnot..| exact Hrun].
    all: apply (bool_decide_unpack _); vm_compute; exact I.
Defined.

Lemma split_colliding_labels_witness :
  load_event_log_from_dataframe string id id keep_cell unit _ keep_table sample_production
    "case_id" "case_id" "timestamp_start" (Some "timestamp_end")
  = ([], Raise (ValueError "All arrays must be of the same length")).
Proof.
  apply (split_colliding_labels string id id keep_cell unit _ keep_table sample_production
           "case_id" "case_id" "timestamp_start" "timestamp_end").
  - left. split; [reflexivity | discriminate].
  - discriminate.
  - repeat constructor; eexists; reflexivity.
Defined.

Lemma file_load_outcomes_witness :
  displayed string (list (gmap string string))
    (fst (load_data string id id (list (gmap string string)) Ok "Load from file"
            (Some [sample_production; []])))
  = load_header string (list (gmap string string)) ++
    [the_file_uploader string (list (gmap string string));
     st_success string (list (gmap string string)) "File loaded successfully!"] /\
  snd (load_data string id id (list (gmap string string)) Ok "Load from file"
         (Some [sample_production; []]))
  = Ok (Some sample_production).
Proof.
  apply (proj2 (file_load_outcomes string id id (list (gmap string string)) Ok)).
  reflexivity.
Defined.

Lemma page_with_warnings_witness :
  snd (page string id id id sample_dtype keep_cell (list (gmap string string)) Ok _ keep_table
         (fun _ => ([], Ok tt)) "" "Load from file" (Some [sample_production])
         (fun _ => sample_collision))
  = Ok (Some sample_production, None).
Proof.
  eassert (Hload : load_data string id id (list (gmap string string)) Ok
                     "Load from file" (Some [sample_production])
                   = (_, Ok (Some sample_production))) by reflexivity.
  destruct (page_with_warnings string id id id sample_dtype keep_cell _ Ok _ keep_table
              (fun _ => ([], Ok tt)) "" _ _ (fun _ => sample_collision) _ _ Hload eq_refl)
    as (warnings & _ & _ & Hpage).
  rewrite Hpage. reflexivity.
Defined.

Lemma page_conversion_raises_witness :
  snd (page string id id id sample_dtype keep_cell (list (gmap string string)) Ok _
         rejecting_formatter (fun _ => ([], Ok tt)) "" "Load from file"
         (Some [sample_production]) (fun _ => sample_selection))
  = Raise (Exception "the dataframe cannot be formatted").
Proof.
  eassert (Hload : load_data string id id (list (gmap string string)) Ok
                     "Load from file" (Some [sample_production])
                   = (_, Ok (Some sample_production))) by reflexivity.
  rewrite (page_conversion_raises string id id id sample_dtype keep_cell _ Ok _ rejecting_formatter
             (fun _ => ([], Ok tt)) "" _ _ (fun _ => sample_selection) _ _
             (Exception "the dataframe cannot be formatted") Hload eq_refl eq_refl).
  reflexivity.
Defined.

Lemma page_with_log_witness :
  snd (page string id id id sample_dtype keep_cell (list (gmap string string)) Ok _ keep_table
         (fun _ => ([], Ok tt)) "" "Load from file" (Some [sample_production])
         (fun _ => sample_selection))
  = Ok (Some sample_production, Some sample_production).
Proof.
  eassert (Hload : load_data string id id (list (gmap string string)) Ok
                     "Load from file" (Some [sample_production])
                   = (_, Ok (Some sample_production))) by reflexivity.
  rewrite (page_with_log string id id id sample_dtype keep_cell _ Ok _ keep_table
             (fun _ => ([], Ok tt)) "" _ _ (fun _ => sample_selection) _ _ _ _ []
             Hload eq_refl eq_refl eq_refl).
  reflexivity.
Defined.

Lemma initial_selection_named_witness :
  initial_selection ["case_id"; "activity"; "timestamp_start"; "timestamp_end"]
  = Some sample_selection.
Proof.
  destruct (initial_selection_named ["case_id"; "activity"; "timestamp_start"; "timestamp_end"])
    as (sel & Hsel & Hc & Ha & Ht & He & _).
  - apply list_elem_of_here.
  - apply list_elem_of_further, list_elem_of_here.
  - right. do 2 apply list_elem_of_further. apply list_elem_of_here.
  - rewrite Hsel. destruct sel as [c a t e]. cbn in *. subst. reflexivity.
Defined.

Lemma initial_selection_unnamed_witness :
  initial_selection ["order"; "step"; "when"]
  = Some {| case_column := "order"; activity_column := "order";
            timestamp_start_column := "order"; timestamp_end_column := None |}.
Proof.
  apply (initial_selection_unnamed string id id sample_dtype keep_cell unit _ keep_table
           "order" ["step"; "when"] sample_production);
    intros Hin; repeat (apply elem_of_cons in Hin as [Hin|Hin]; [discriminate Hin|]);
    apply elem_of_nil in Hin; exact Hin.
Defined.

(** * Properties *)

(** ** The duration formatter *)

Section Formatter.

Local Open Scope Q_scope.

Lemma lt_const_spec (seconds : Q) (c : Z) :
  lt_const seconds c = true <-> seconds < inject_Z c.
Proof.
  unfold lt_const. rewrite negb_true_iff, <- not_true_iff_false, Qle_bool_iff.
  split; [apply Qnot_le_lt | apply Qlt_not_le].
Qed.

Lemma lt_const_false (seconds : Q) (c : Z) :
  lt_const seconds c = false <-> inject_Z c <= seconds.
Proof.
  unfold lt_const. rewrite negb_false_iff. apply Qle_bool_iff.
Qed.

Lemma last_word_from_append (number rest word : string) :
  last_word_from word (number +:+ String " " rest) = last_word_from rest rest.
Proof.
  revert word. induction number as [|c number IH]; intros word; simpl.
  - reflexivity.
  - destruct (Ascii.eqb c " "); apply IH.
Qed.

Lemma unit_of_text_append (number : string) (u : time_unit) :
  unit_of_text (number +:+ String " " (unit_word u)) = Some u.
Proof.
  unfold unit_of_text, last_word. rewrite last_word_from_append.
  destruct u; reflexivity.
Qed.

(** [round_half_even] is within a half of its argument. *)
Lemma round_half_even_near (x : Q) :
  inject_Z (round_half_even x) - (1 # 2) <= x <= inject_Z (round_half_even x) + (1 # 2).
Proof.
  destruct x as [n d]. unfold round_half_even, Qfloor. cbn [Qnum Qden].
  pose proof (Z.div_mod n (Zpos d) ltac:(lia)) as Hdiv.
  pose proof (Z.mod_pos_bound n (Zpos d) ltac:(lia)) as Hmod.
  set (f := (n / Zpos d)%Z) in *. set (r := (n mod Zpos d)%Z) in *.
  assert (Hcases :
    forall z, (2 * Zpos d * z - Zpos d <= 2 * n <= 2 * Zpos d * z + Zpos d)%Z ->
              inject_Z z - (1 # 2) <= n # d <= inject_Z z + (1 # 2)).
  { intros z Hz. unfold Qle, Qminus, Qplus, Qopp, inject_Z. cbn. lia. }
  destruct (2 * r <? Zpos d)%Z eqn:Hlow; [apply Hcases; lia|].
  destruct (Zpos d <? 2 * r)%Z eqn:Hhigh; [apply Hcases; lia|].
  destruct (Z.even f); apply Hcases; lia.
Qed.

(** The unit of the text, branch by branch. *)
Lemma unit_of_make_text (seconds : Q) :
  unit_of_text (make_text_from_seconds seconds) =
  Some (if lt_const seconds 120 then Seconds
        else if lt_const seconds 3600 then Minutes
        else if lt_const seconds 86400 then Hours
        else if lt_const seconds 1209600 then Days
        else if lt_const seconds 2592000 then Weeks
        else Months).
Proof.
  unfold make_text_from_seconds.
  change (60 * 2)%Z with 120%Z. change (3600 * 1)%Z with 3600%Z.
  change (86400 * 1)%Z with 86400%Z. change (604800 * 2)%Z with 1209600%Z.
  change (2592000 * 1)%Z with 2592000%Z.
  repeat match goal with
         | |- context [if lt_const ?s ?c then _ else _] => destruct (lt_const s c)
         end.
  - apply (unit_of_text_append _ Seconds).
  - apply (unit_of_text_append _ Minutes).
  - apply (unit_of_text_append _ Hours).
  - apply (unit_of_text_append _ Days).
  - apply (unit_of_text_append _ Weeks).
  - apply (unit_of_text_append _ Months).
Qed.

(** *** The number in the text *)

Lemma round_half_even_proper (x : Q) :
  round_half_even (x * inject_Z 1) = round_half_even x.
Proof.
  destruct x as [n d]. unfold round_half_even, Qfloor, Qmult, inject_Z. cbn [Qnum Qden].
  rewrite Z.mul_1_r, Pos.mul_1_r. reflexivity.
Qed.

Lemma py_int_py_round_0 (x : Q) : py_int (py_round x 0) = round_half_even x.
Proof.
  unfold py_round. change (10 ^ Z.of_nat 0)%Z with 1%Z.
  rewrite round_half_even_proper.
  unfold py_int, Qdiv, Qmult, Qinv, inject_Z. cbn.
  rewrite Z.mul_1_r. apply Z.quot_1_r.
Qed.

(** An integer within a half of a number between two integers lies between
    them as well. *)
Lemma round_half_even_between (x : Q) (lo hi : Z) :
  inject_Z lo <= x -> x <= inject_Z hi ->
  (lo <= round_half_even x <= hi)%Z.
Proof.
  intros Hlo Hhi. pose proof (round_half_even_near x) as [Hdown Hup].
  split.
  - assert (H : inject_Z lo < inject_Z (round_half_even x + 1)).
    { rewrite inject_Z_plus. unfold inject_Z at 3. lra. }
    rewrite <- Zlt_Qlt in H. lia.
  - assert (H : inject_Z (round_half_even x) < inject_Z (hi + 1)).
    { rewrite inject_Z_plus. unfold inject_Z at 3. lra. }
    rewrite <- Zlt_Qlt in H. lia.
Qed.

(** C1, as the specification has it: the table gives ["59 minutes"] for
    3599 seconds, which the function does not return. *)
Lemma example_table_3599_fails :
  ~ (make_text_from_seconds 119 = "119 seconds" /\
     make_text_from_seconds 120 = "2 minutes" /\
     make_text_from_seconds 3599 = "59 minutes" /\
     make_text_from_seconds 3600 = "1.0 hours").
Proof.
  intros (_ & _ & H & _). vm_compute in H. discriminate H.
Qed.

(** C1, amended: 119 gives ["119 seconds"], 120 gives ["2 minutes"], 3600
    gives ["1.0 hours"], and 3599, whose 59.98 minutes round to 60, gives
    ["60 minutes"]. *)
Theorem example_table :
  make_text_from_seconds 119 = "119 seconds" /\
  make_text_from_seconds 120 = "2 minutes" /\
  make_text_from_seconds 3599 = "60 minutes" /\
  make_text_from_seconds 3600 = "1.0 hours".
Proof.
  repeat split; vm_compute; reflexivity.
Qed.

Ltac order_of_tests :=
  repeat match goal with
         | H : lt_const _ _ = true |- _ => apply lt_const_spec in H
         | H : lt_const _ _ = false |- _ => apply lt_const_false in H
         end;
  unfold inject_Z in *.

Lemma Qdiv_const (x : Q) (c : positive) : x / inject_Z (Zpos c) = x * (1 # c).
Proof. reflexivity. Qed.

(** The unit of the text of a finite number is fixed by where its value
    lies among the boundaries 120, 3600, 86400, 1209600 and 2592000. *)
Lemma unit_by_value (seconds : Q) :
  let unit := unit_of_text (make_text_from_seconds seconds) in
  (unit = Some Seconds <-> seconds < 120) /\
  (unit = Some Minutes <-> 120 <= seconds < 3600) /\
  (unit = Some Hours <-> 3600 <= seconds < 86400) /\
  (unit = Some Days <-> 86400 <= seconds < 1209600) /\
  (unit = Some Weeks <-> 1209600 <= seconds < 2592000) /\
  (unit = Some Months <-> 2592000 <= seconds).
Proof.
  cbv zeta. rewrite unit_of_make_text.
  destruct (lt_const seconds 120) eqn:H1;
  destruct (lt_const seconds 3600) eqn:H2;
  destruct (lt_const seconds 86400) eqn:H3;
  destruct (lt_const seconds 1209600) eqn:H4;
  destruct (lt_const seconds 2592000) eqn:H5;
  order_of_tests;
  repeat split; intros; try discriminate; try lra.
Qed.

(** *** All numbers *)

Lemma float_limit_large : (3600 <= float_limit)%Z.
Proof. unfold Z.le. vm_compute. discriminate. Qed.

Lemma float_overflow_large : (2592000 <= float_overflow)%Z.
Proof. unfold Z.le. vm_compute. discriminate. Qed.

Lemma int_max_str_large : (float_limit < int_max_str)%Z.
Proof. vm_compute. reflexivity. Qed.

Lemma round_half_even_inject_Z (z : Z) : round_half_even (inject_Z z) = z.
Proof.
  unfold round_half_even, Qfloor, inject_Z. cbn [Qnum Qden].
  rewrite Z.mod_1_r, Z.div_1_r. reflexivity.
Qed.

Lemma str_of_int (z : Z) :
  (Z.abs z < int_max_str)%Z -> Py.str (PyInt z) = Ok (str_int z).
Proof.
  intros Hz. unfold Py.str.
  destruct (Z.ltb_spec (Z.abs z) int_max_str) as [_|Hge]; [reflexivity | lia].
Qed.

Lemma truediv_of_int (z c : Z) :
  (Z.abs z < c * float_overflow)%Z ->
  Py.truediv (PyInt z) c = Ok (PyFloat (inject_Z z / inject_Z c)).
Proof.
  intros Hz. unfold Py.truediv.
  destruct (Z.leb_spec (c * float_overflow) (Z.abs z)) as [Hge|_]; [lia | reflexivity].
Qed.

Lemma truediv_overflow (z c : Z) :
  (c * float_overflow <= z)%Z ->
  Py.truediv (PyInt z) c
  = Raise (OverflowError "integer division result too large for a float").
Proof.
  intros Hz. unfold Py.truediv.
  destruct (Z.leb_spec (c * float_overflow) (Z.abs z)) as [_|Hlt]; [reflexivity | lia].
Qed.

(** On a finite number the function does what it does on its value, as
    long as the whole number of seconds can be printed. *)
Lemma make_text_of_float (x : Q) :
  inject_Z (- float_limit) < x ->
  Py.make_text_from_seconds (PyFloat x) = Ok (make_text_from_seconds x).
Proof.
  intros Hlow. pose proof float_limit_large as Hlimit.
  pose proof int_max_str_large as Hstr.
  unfold Py.make_text_from_seconds, make_text_from_seconds, Py.lt.
  change (60 * 2)%Z with 120%Z. change (3600 * 1)%Z with 3600%Z.
  destruct (lt_const x 120) eqn:H1.
  { cbn [Py.round Py.int mbind result_bind]. rewrite py_int_py_round_0.
    apply lt_const_spec in H1.
    assert (Hr : (- float_limit <= round_half_even x <= 120)%Z).
    { apply round_half_even_between; [apply Qlt_le_weak; exact Hlow|].
      apply Qlt_le_weak. exact H1. }
    rewrite str_of_int by lia. reflexivity. }
  destruct (lt_const x 3600) eqn:H2.
  { cbn [Py.truediv Py.round Py.int mbind result_bind]. rewrite py_int_py_round_0.
    apply lt_const_false in H1. apply lt_const_spec in H2.
    assert (Hr : (2 <= round_half_even (x / inject_Z 60) <= 60)%Z).
    { apply round_half_even_between; rewrite Qdiv_const; unfold inject_Z in *; lra. }
    rewrite str_of_int by lia. reflexivity. }
  repeat match goal with
         | |- context [if lt_const ?s ?c then _ else _] => destruct (lt_const s c)
         end; reflexivity.
Qed.

Lemma make_text_of_int (z : Z) :
  (- int_max_str < z < 2592000 * float_overflow)%Z ->
  Py.make_text_from_seconds (PyInt z) = Ok (make_text_from_seconds (inject_Z z)).
Proof.
  intros [Hlow Hhigh]. pose proof float_overflow_large as Hlarge.
  pose proof float_limit_large as Hlimit. pose proof int_max_str_large as Hstr.
  unfold Py.make_text_from_seconds, make_text_from_seconds, Py.lt.
  change (60 * 2)%Z with 120%Z. change (3600 * 1)%Z with 3600%Z.
  change (86400 * 1)%Z with 86400%Z. change (604800 * 2)%Z with 1209600%Z.
  change (2592000 * 1)%Z with 2592000%Z.
  destruct (lt_const (inject_Z z) 120) eqn:H1.
  { cbn [Py.round Py.int mbind result_bind].
    rewrite py_int_py_round_0, round_half_even_inject_Z.
    apply lt_const_spec in H1. rewrite <- Zlt_Qlt in H1.
    rewrite str_of_int by lia. reflexivity. }
  apply lt_const_false in H1. rewrite <- Zle_Qle in H1.
  destruct (lt_const (inject_Z z) 3600) eqn:H2.
  { pose proof H2 as H2'. apply lt_const_spec in H2'. rewrite <- Zlt_Qlt in H2'.
    rewrite truediv_of_int by lia.
    cbn [Py.round Py.int mbind result_bind]. rewrite py_int_py_round_0.
    assert (Hr : (2 <= round_half_even (inject_Z z / inject_Z 60) <= 60)%Z).
    { apply round_half_even_between; rewrite Qdiv_const.
      - rewrite Zle_Qle in H1. unfold inject_Z in *. lra.
      - rewrite Zlt_Qlt in H2'. unfold inject_Z in *. lra. }
    rewrite str_of_int by lia. reflexivity. }
  destruct (lt_const (inject_Z z) 86400) eqn:H3.
  { apply lt_const_spec in H3. rewrite <- Zlt_Qlt in H3.
    rewrite truediv_of_int by lia. reflexivity. }
  destruct (lt_const (inject_Z z) 1209600) eqn:H4.
  { apply lt_const_spec in H4. rewrite <- Zlt_Qlt in H4.
    rewrite truediv_of_int by lia. reflexivity. }
  destruct (lt_const (inject_Z z) 2592000) eqn:H5.
  { apply lt_const_spec in H5. rewrite <- Zlt_Qlt in H5.
    rewrite truediv_of_int by lia. reflexivity. }
  rewrite truediv_of_int by lia. reflexivity.
Qed.

(** Every number in range has a text. *)
Lemma make_text_in_range (seconds : number) :
  Py.in_range seconds ->
  exists text, Py.make_text_from_seconds seconds = Ok text.
Proof.
  destruct seconds as [z|x|negative|]; cbn [Py.in_range].
  - intros Hz. eexists. apply make_text_of_int. exact Hz.
  - intros [Hlow _]. eexists. apply make_text_of_float. exact Hlow.
  - intros ->. eexists. reflexivity.
  - intros [].
Qed.

(** The branch that ran is read off the text, whenever there is one. *)
Lemma unit_of_number_text (seconds : number) (text : string) :
  Py.make_text_from_seconds seconds = Ok text ->
  unit_of_text text =
  Some (if Py.lt seconds 120 then Seconds
        else if Py.lt seconds 3600 then Minutes
        else if Py.lt seconds 86400 then Hours
        else if Py.lt seconds 1209600 then Days
        else if Py.lt seconds 2592000 then Weeks
        else Months).
Proof.
  unfold Py.make_text_from_seconds.
  change (60 * 2)%Z with 120%Z. change (3600 * 1)%Z with 3600%Z.
  change (86400 * 1)%Z with 86400%Z. change (604800 * 2)%Z with 1209600%Z.
  change (2592000 * 1)%Z with 2592000%Z.
  repeat match goal with
         | |- context [if Py.lt ?s ?c then _ else _] => destruct (Py.lt s c)
         end;
  repeat match goal with
         | |- (?m ≫= _) = Ok _ -> _ =>
             destruct m; cbn [mbind result_bind]; [|discriminate]
         end;
  intros [= <-].
  - apply (unit_of_text_append _ Seconds).
  - apply (unit_of_text_append _ Minutes).
  - apply (unit_of_text_append _ Hours).
  - apply (unit_of_text_append _ Days).
  - apply (unit_of_text_append _ Weeks).
  - apply (unit_of_text_append _ Months).
Qed.

(** The tests of a number that is not NaN are those of its place among the
    boundaries. *)
Lemma tests_in_order (seconds : number) (c c' : Z) :
  seconds <> PyNaN ->
  Py.ge seconds c = negb (Py.lt seconds c) /\
  ((c <= c')%Z -> Py.lt seconds c = true -> Py.lt seconds c' = true).
Proof.
  intros Hnan. destruct seconds as [z|x|negative|]; [| | |congruence]; cbn [Py.ge Py.lt].
  - split; [unfold lt_const; rewrite negb_involutive; reflexivity|].
    intros Hle. rewrite !lt_const_spec. rewrite Zle_Qle in Hle. lra.
  - split; [unfold lt_const; rewrite negb_involutive; reflexivity|].
    intros Hle. rewrite !lt_const_spec. rewrite Zle_Qle in Hle. lra.
  - split; [reflexivity | trivial].
Qed.

(** C5, as the specification has it: for every input the unit is fixed by
    the five boundaries, months exactly from 2592000 on.  NaN, which the
    page passes when a mean or a deviation is not defined, is not
    [>= 2592000] and is rendered in months. *)
Lemma unit_thresholds_nan_fails :
  ~ (forall seconds text,
       Py.make_text_from_seconds seconds = Ok text ->
       (unit_of_text text = Some Seconds <-> Py.lt seconds 120 = true) /\
       (unit_of_text text = Some Minutes <->
        Py.ge seconds 120 = true /\ Py.lt seconds 3600 = true) /\
       (unit_of_text text = Some Hours <->
        Py.ge seconds 3600 = true /\ Py.lt seconds 86400 = true) /\
       (unit_of_text text = Some Days <->
        Py.ge seconds 86400 = true /\ Py.lt seconds 1209600 = true) /\
       (unit_of_text text = Some Weeks <->
        Py.ge seconds 1209600 = true /\ Py.lt seconds 2592000 = true) /\
       (unit_of_text text = Some Months <-> Py.ge seconds 2592000 = true)).
Proof.
  intros Hclaim.
  assert (Hnan : Py.make_text_from_seconds PyNaN = Ok "nan months") by reflexivity.
  apply Hclaim in Hnan. destruct Hnan as (_ & _ & _ & _ & _ & Hmonths & _).
  specialize (Hmonths eq_refl). discriminate Hmonths.
Qed.

(** C5, amended: for every number in range, which leaves out NaN, the
    negative infinity and the ints that cannot be divided or printed, the
    function returns a text whose unit is fixed by where the input lies
    among the boundaries 120, 3600, 86400, 1209600 and 2592000: seconds
    below 120, minutes from 120 to below 3600, hours from 3600 to below
    86400, days from 86400 to below 1209600, weeks from 1209600 to below
    2592000 and months from 2592000 on.  For NaN the text is
    ["nan months"]. *)
Theorem unit_thresholds_of_numbers (seconds : number) :
  (Py.in_range seconds ->
   exists text,
     Py.make_text_from_seconds seconds = Ok text /\
     (unit_of_text text = Some Seconds <-> Py.lt seconds 120 = true) /\
     (unit_of_text text = Some Minutes <->
      Py.ge seconds 120 = true /\ Py.lt seconds 3600 = true) /\
     (unit_of_text text = Some Hours <->
      Py.ge seconds 3600 = true /\ Py.lt seconds 86400 = true) /\
     (unit_of_text text = Some Days <->
      Py.ge seconds 86400 = true /\ Py.lt seconds 1209600 = true) /\
     (unit_of_text text = Some Weeks <->
      Py.ge seconds 1209600 = true /\ Py.lt seconds 2592000 = true) /\
     (unit_of_text text = Some Months <-> Py.ge seconds 2592000 = true)) /\
  Py.make_text_from_seconds PyNaN = Ok "nan months".
Proof.
  split; [|reflexivity].
  intros Hrange. destruct (make_text_in_range seconds Hrange) as [text Htext].
  exists text. split; [exact Htext|].
  rewrite (unit_of_number_text seconds text Htext).
  assert (Hnan : seconds <> PyNaN) by (intros ->; exact Hrange).
  destruct (tests_in_order seconds 120 3600 Hnan) as [-> H12].
  destruct (tests_in_order seconds 3600 86400 Hnan) as [-> H23].
  destruct (tests_in_order seconds 86400 1209600 Hnan) as [-> H34].
  destruct (tests_in_order seconds 1209600 2592000 Hnan) as [-> H45].
  destruct (tests_in_order seconds 2592000 2592000 Hnan) as [-> _].
  specialize (H12 ltac:(lia)). specialize (H23 ltac:(lia)).
  specialize (H34 ltac:(lia)). specialize (H45 ltac:(lia)).
  destruct (Py.lt seconds 120);
    [rewrite (H12 eq_refl), (H23 eq_refl), (H34 eq_refl), (H45 eq_refl) in *|];
  [|destruct (Py.lt seconds 3600);
    [rewrite (H23 eq_refl), (H34 eq_refl), (H45 eq_refl) in *|]];
  [| |destruct (Py.lt seconds 86400);
    [rewrite (H34 eq_refl), (H45 eq_refl) in *|]];
  [| | |destruct (Py.lt seconds 1209600); [rewrite (H45 eq_refl) in *|]];
  [| | | |destruct (Py.lt seconds 2592000)];
  cbn [negb]; repeat split; intros; destruct_and?; congruence.
Qed.

Lemma unit_thresholds_of_numbers_witness :
  exists text,
    Py.make_text_from_seconds (PyInt 3599) = Ok text /\
    unit_of_text text = Some Minutes.
Proof.
  destruct (proj1 (unit_thresholds_of_numbers (PyInt 3599)))
    as (text & Htext & _ & Hminutes & _).
  - vm_compute. split; reflexivity.
  - exists text. split; [exact Htext|]. apply Hminutes. split; reflexivity.
Defined.

(** C10, as the specification has it: every input has a text.  An int
    whose quotient by 2592000 is too large for a float has none: the
    division raises. *)
Lemma make_text_total_fails :
  ~ (forall seconds, exists text, Py.make_text_from_seconds seconds = Ok text).
Proof.
  intros Hclaim. destruct (Hclaim (PyInt (10 ^ 400))) as [text Htext].
  vm_compute in Htext. discriminate Htext.
Qed.

(** C10, amended: the function returns a text for NaN and for every number
    in range: every float, every int that can be printed and whose
    quotient by 2592000 fits a float, and the positive infinity.  The text
    carries one unit, seconds exactly when the input is below 120: an int
    below 120, zero and the negative ones included, is printed as it is,
    and a float below 120 rounded to a whole number.  NaN and the positive
    infinity give ["nan months"] and ["inf months"].  For the negative
    infinity and for an int from [2592000 * (2^1024 - 2^970)] on the
    function raises [OverflowError]. *)
Theorem make_text_defined (seconds : number) :
  (Py.in_range seconds \/ seconds = PyNaN ->
   exists text unit,
     Py.make_text_from_seconds seconds = Ok text /\
     unit_of_text text = Some unit /\
     (unit = Seconds <-> Py.lt seconds 120 = true)) /\
  (forall z : Z,
      (- int_max_str < z < 120)%Z ->
      Py.make_text_from_seconds (PyInt z) = Ok (str_int z +:+ " seconds")) /\
  (forall x : Q,
      inject_Z (- float_limit) < x -> x < 120 ->
      Py.make_text_from_seconds (PyFloat x)
      = Ok (str_int (round_half_even x) +:+ " seconds")) /\
  Py.make_text_from_seconds PyNaN = Ok "nan months" /\
  Py.make_text_from_seconds (PyInf false) = Ok "inf months" /\
  Py.make_text_from_seconds (PyInf true)
  = Raise (OverflowError "cannot convert float infinity to integer") /\
  (forall z : Z,
      (2592000 * float_overflow <= z)%Z ->
      Py.make_text_from_seconds (PyInt z)
      = Raise (OverflowError "integer division result too large for a float")).
Proof.
  pose proof float_overflow_large as Hlarge.
  split; [|split; [|split; [|split; [reflexivity|split; [reflexivity|split]]]]].
  - intros Hin.
    assert (Htext : exists text, Py.make_text_from_seconds seconds = Ok text).
    { destruct Hin as [Hrange | ->]; [apply make_text_in_range; exact Hrange|].
      eexists. reflexivity. }
    destruct Htext as [text Htext]. exists text. eexists.
    split; [exact Htext|]. split; [exact (unit_of_number_text seconds text Htext)|].
    destruct (Py.lt seconds 120); [split; reflexivity|].
    repeat match goal with
           | |- context [if Py.lt ?s ?c then _ else _] => destruct (Py.lt s c)
           end; split; discriminate.
  - intros z [Hlow Hhigh]. rewrite make_text_of_int by lia. f_equal.
    unfold make_text_from_seconds. change (60 * 2)%Z with 120%Z.
    assert (Htest : lt_const (inject_Z z) 120 = true)
      by (apply lt_const_spec; rewrite <- Zlt_Qlt; exact Hhigh).
    rewrite Htest, py_int_py_round_0, round_half_even_inject_Z. reflexivity.
  - intros x Hlow Hhigh. rewrite make_text_of_float by exact Hlow. f_equal.
    unfold make_text_from_seconds. change (60 * 2)%Z with 120%Z.
    assert (Htest : lt_const x 120 = true) by (apply lt_const_spec; exact Hhigh).
    rewrite Htest, py_int_py_round_0. reflexivity.
  - reflexivity.
  - intros z Hz. unfold Py.make_text_from_seconds, Py.lt.
    repeat match goal with
           | |- context [if lt_const ?s ?c then _ else _] =>
               let H := fresh "Htest" in
               destruct (lt_const s c) eqn:H;
               [apply lt_const_spec in H; rewrite <- Zlt_Qlt in H; lia|clear H]
           end.
    rewrite truediv_overflow by exact Hz. reflexivity.
Qed.

Lemma make_text_defined_witness :
  Py.make_text_from_seconds (PyInf false) = Ok "inf months" /\
  Py.make_text_from_seconds (PyFloat (-5 # 2)) = Ok "-2 seconds" /\
  Py.make_text_from_seconds (PyInt (-7)) = Ok "-7 seconds" /\
  Py.make_text_from_seconds (PyInt (10 ^ 400))
  = Raise (OverflowError "integer division result too large for a float").
Proof.
  destruct (make_text_defined (PyInf false))
    as (Htext & Hint & Hfloat & _ & _ & _ & Hlarge).
  split; [|split; [|split]].
  - destruct (Htext (or_introl eq_refl)) as (text & unit & Hrun & _ & _).
    rewrite Hrun. injection Hrun as <-. reflexivity.
  - rewrite (Hfloat (-5 # 2)); [reflexivity | vm_compute; reflexivity | reflexivity].
  - rewrite (Hint (-7)%Z); [reflexivity | vm_compute; split; reflexivity].
  - apply Hlarge. unfold Z.le. vm_compute. discriminate.
Defined.

(** X4: below 120 the text is the input rounded to a whole number of
    seconds; it differs from the input by at most half a second and reads
    at most ["120 seconds"]. *)
Theorem seconds_text (seconds : Q) :
  seconds < 120 ->
  exists n,
    make_text_from_seconds seconds = str_int n +:+ " seconds" /\
    inject_Z n - (1 # 2) <= seconds <= inject_Z n + (1 # 2) /\
    (n <= 120)%Z.
Proof.
  intros Hlt. exists (round_half_even seconds).
  pose proof (round_half_even_near seconds) as Hnear.
  split; [|split; [exact Hnear|]].
  - unfold make_text_from_seconds. change (60 * 2)%Z with 120%Z.
    assert (Htest : lt_const seconds 120 = true) by (apply lt_const_spec; exact Hlt).
    rewrite Htest, py_int_py_round_0. reflexivity.
  - assert (H : inject_Z (round_half_even seconds) < inject_Z 121).
    { unfold inject_Z at 2. lra. }
    rewrite <- Zlt_Qlt in H. lia.
Qed.

Lemma seconds_text_witness :
  exists n, make_text_from_seconds (239 # 2) = str_int n +:+ " seconds" /\ (n <= 120)%Z.
Proof.
  destruct (seconds_text (239 # 2)) as (n & Htext & _ & Hn); [reflexivity|].
  exists n. split; [exact Htext | exact Hn].
Defined.

(** X5: from 120 to below 3600 the text is the input over 60 rounded to a
    whole number of minutes, between ["2 minutes"] and ["60 minutes"]. *)
Theorem minutes_text (seconds : Q) :
  120 <= seconds -> seconds < 3600 ->
  exists m,
    make_text_from_seconds seconds = str_int m +:+ " minutes" /\
    inject_Z m - (1 # 2) <= seconds / inject_Z 60 <= inject_Z m + (1 # 2) /\
    (2 <= m <= 60)%Z.
Proof.
  intros Hge Hlt. exists (round_half_even (seconds / inject_Z 60)).
  split; [|split; [apply round_half_even_near|]].
  - unfold make_text_from_seconds.
    change (60 * 2)%Z with 120%Z. change (3600 * 1)%Z with 3600%Z.
    assert (H1 : lt_const seconds 120 = false) by (apply lt_const_false; exact Hge).
    assert (H2 : lt_const seconds 3600 = true) by (apply lt_const_spec; exact Hlt).
    rewrite H1, H2, py_int_py_round_0. reflexivity.
  - apply round_half_even_between; rewrite Qdiv_const; unfold inject_Z; lra.
Qed.

Lemma minutes_text_witness :
  exists m, make_text_from_seconds 3599 = str_int m +:+ " minutes" /\ (2 <= m <= 60)%Z.
Proof.
  destruct (minutes_text 3599) as (m & Htext & _ & Hm); [discriminate | reflexivity |].
  exists m. split; [exact Htext | exact Hm].
Defined.

(** X20: a longer duration is never shown in a smaller unit. *)
Theorem unit_grows_with_input (seconds seconds' : Q) :
  seconds <= seconds' ->
  exists u u',
    unit_of_text (make_text_from_seconds seconds) = Some u /\
    unit_of_text (make_text_from_seconds seconds') = Some u' /\
    (unit_rank u <= unit_rank u')%nat.
Proof.
  intros Hle. rewrite !unit_of_make_text.
  repeat match goal with
         | |- context [if lt_const ?s ?c then _ else _] =>
             let H := fresh "Htest" in destruct (lt_const s c) eqn:H
         end;
  (eexists; eexists; split; [reflexivity|]; split; [reflexivity|]);
  cbn [unit_rank]; first [lia | exfalso; order_of_tests; lra].
Qed.

Lemma unit_grows_with_input_witness :
  exists u u',
    unit_of_text (make_text_from_seconds 3599) = Some u /\
    unit_of_text (make_text_from_seconds 3600) = Some u' /\
    (unit_rank u <= unit_rank u')%nat.
Proof.
  apply (unit_grows_with_input 3599 3600). discriminate.
Defined.

End Formatter.

(** ** The sweep of the temporary folder *)

Section Sweep.

Implicit Types (fs : filesystem) (p folder : path) (name : string) (e : entry).

Lemma clear_tempfiles_body_spec folder cutoff fs name :
  clear_tempfiles_body folder cutoff fs name =
  Ok (if stale cutoff fs (os_path_join folder name)
      then delete (os_path_join folder name) fs else fs).
Proof.
  unfold clear_tempfiles_body, stale, os_path_isfile, os_path_getmtime, os_remove.
  destruct (fs !! os_path_join folder name) as [e|] eqn:He; [|reflexivity].
  destruct (bool_decide (entry_kind e = RegularFile)) eqn:Hk; simpl; [|reflexivity].
  apply bool_decide_eq_true in Hk.
  destruct (Qltb (st_mtime e) cutoff); [|reflexivity].
  destruct (decide (entry_kind e = Directory)) as [Hd|]; [|reflexivity].
  rewrite Hk in Hd. discriminate Hd.
Qed.

(** The loop never raises, and what it leaves at a path is what was there,
    unless the path was listed and stale. *)
Lemma sweep_loop folder cutoff names fs :
  exists fs',
    for_each (clear_tempfiles_body folder cutoff) names fs = Ok fs' /\
    forall p,
      fs' !! p =
      if bool_decide (p ∈ os_path_join folder <$> names) && stale cutoff fs p
      then None else fs !! p.
Proof.
  revert fs. induction names as [|name names IH]; intros fs.
  - exists fs. split; [reflexivity|]. intros p.
    rewrite bool_decide_eq_false_2; [reflexivity | apply not_elem_of_nil].
  - cbn [for_each]. rewrite clear_tempfiles_body_spec. cbn [mbind result_bind].
    set (q := os_path_join folder name).
    set (fs1 := if stale cutoff fs q then delete q fs else fs).
    destruct (IH fs1) as (fs' & Hrun & Hfs'). exists fs'. split; [exact Hrun|].
    intros p. rewrite Hfs', fmap_cons. fold q. clear Hrun Hfs' IH.
    assert (Hfs1 : fs1 !! p = if bool_decide (p = q) && stale cutoff fs p
                              then None else fs !! p).
    { subst fs1. destruct (decide (p = q)) as [->|Hne].
      - rewrite bool_decide_eq_true_2 by reflexivity. simpl.
        destruct (stale cutoff fs q); [apply lookup_delete_eq | reflexivity].
      - rewrite bool_decide_eq_false_2 by exact Hne. simpl.
        destruct (stale cutoff fs q); [apply lookup_delete_ne; congruence | reflexivity]. }
    assert (Hstale : stale cutoff fs1 p
                     = negb (bool_decide (p = q)) && stale cutoff fs p).
    { unfold stale at 1. rewrite Hfs1. destruct (bool_decide (p = q)); simpl.
      - destruct (stale cutoff fs p) eqn:Hs; [reflexivity|].
        unfold stale in Hs. exact Hs.
      - reflexivity. }
    rewrite Hstale, Hfs1.
    destruct (decide (p = q)) as [->|Hne].
    + rewrite (bool_decide_eq_true_2 (q = q)) by reflexivity.
      rewrite (bool_decide_eq_true_2 (q ∈ q :: _)) by apply list_elem_of_here.
      simpl. rewrite andb_false_r. reflexivity.
    + rewrite (bool_decide_eq_false_2 (p = q)) by exact Hne. simpl.
      rewrite (bool_decide_ext (p ∈ q :: (os_path_join folder <$> names))
                               (p ∈ os_path_join folder <$> names)).
      * reflexivity.
      * rewrite elem_of_cons. tauto.
Qed.

Lemma child_name_join folder p name :
  child_name folder p = Some name <-> p = os_path_join folder name.
Proof.
  unfold child_name, os_path_join. split.
  - intros H. rewrite <- (take_drop (length folder) p).
    destruct (drop (length folder) p) as [|n [|? ?]]; try discriminate H.
    destruct (decide (take (length folder) p = folder)) as [->|]; [|discriminate H].
    congruence.
  - intros ->. rewrite drop_app_length, take_app_length.
    rewrite decide_True by reflexivity. reflexivity.
Qed.

(** [os.listdir] lists the names of the paths that lie directly in the
    folder. *)
Lemma os_listdir_spec folder fs names p :
  os_listdir folder fs = Ok names ->
  p ∈ os_path_join folder <$> names <->
  is_Some (fs !! p) /\ is_Some (child_name folder p).
Proof.
  unfold os_listdir. destruct (fs !! folder) as [d|]; [|discriminate].
  destruct (decide (entry_kind d = Directory)) as [_|_]; [|discriminate].
  intros [= <-]. rewrite list_elem_of_fmap. split.
  - intros (name & -> & Hin). apply list_elem_of_omap in Hin as (q & Hq & Hname).
    apply child_name_join in Hname as ->.
    apply list_elem_of_fmap in Hq as ([q' ent] & Heq & Hq). simpl in Heq. subst q'.
    apply elem_of_map_to_list in Hq. split; [eauto|].
    exists name. apply child_name_join. reflexivity.
  - intros ([e He] & [name Hname]). exists name.
    split; [apply child_name_join; exact Hname|].
    apply list_elem_of_omap. exists p. split; [|exact Hname].
    apply list_elem_of_fmap. exists (p, e). split; [reflexivity|].
    apply elem_of_map_to_list. exact He.
Qed.

(** What [clear_tempfiles] leaves of the file system. *)
Lemma clear_tempfiles_lookup now fs d :
  fs !! TEMPORARY_FILES_FOLDER_NAME = Some d ->
  entry_kind d = Directory ->
  exists fs',
    clear_tempfiles now fs = Ok fs' /\
    forall p,
      fs' !! p =
      if bool_decide (is_Some (child_name TEMPORARY_FILES_FOLDER_NAME p))
         && stale (now - inject_Z 3600)%Q fs p
      then None else fs !! p.
Proof.
  intros Hd Hkind. unfold clear_tempfiles.
  destruct (os_listdir TEMPORARY_FILES_FOLDER_NAME fs) as [names|err] eqn:Hls.
  2:{ unfold os_listdir in Hls. rewrite Hd in Hls.
      rewrite decide_True in Hls by exact Hkind. discriminate Hls. }
  simpl.
  destruct (sweep_loop TEMPORARY_FILES_FOLDER_NAME (now - inject_Z 3600)%Q names fs)
    as (fs' & Hrun & Hfs').
  exists fs'. split; [exact Hrun|]. intros p. rewrite Hfs'.
  destruct (stale (now - inject_Z 3600)%Q fs p) eqn:Hs;
    [|rewrite !andb_false_r; reflexivity].
  rewrite !andb_true_r.
  rewrite (bool_decide_ext (p ∈ os_path_join TEMPORARY_FILES_FOLDER_NAME <$> names)
                           (is_Some (child_name TEMPORARY_FILES_FOLDER_NAME p)));
    [reflexivity|].
  rewrite (os_listdir_spec _ _ _ p Hls).
  unfold stale in Hs. destruct (fs !! p); [|discriminate Hs].
  split; [tauto | eauto].
Qed.

Lemma Qltb_spec (x y : Q) : Qltb x y = true <-> (x < y)%Q.
Proof.
  unfold Qltb. rewrite negb_true_iff, <- not_true_iff_false, Qle_bool_iff.
  split; [apply Qnot_le_lt | apply Qlt_not_le].
Qed.

Lemma stale_spec cutoff fs p e :
  fs !! p = Some e ->
  stale cutoff fs p = true <-> entry_kind e = RegularFile /\ (st_mtime e < cutoff)%Q.
Proof.
  intros He. unfold stale. rewrite He, andb_true_iff, bool_decide_eq_true, Qltb_spec.
  reflexivity.
Qed.

(** Lines 21 and 22 put the folder in place, unless its name is taken by
    something that is not a directory. *)
Lemma startup_folder_in_place now fs :
  (forall e, fs !! TEMPORARY_FILES_FOLDER_NAME = Some e -> entry_kind e = Directory) ->
  exists fs1 d,
    startup now fs = clear_tempfiles now fs1 /\
    fs1 !! TEMPORARY_FILES_FOLDER_NAME = Some d /\ entry_kind d = Directory.
Proof.
  intros Hdir. unfold startup, os_path_exists, os_makedirs.
  destruct (fs !! TEMPORARY_FILES_FOLDER_NAME) as [e|] eqn:He.
  - exists fs, e. rewrite bool_decide_eq_true_2 by eauto.
    repeat split; [exact He | apply Hdir; reflexivity].
  - exists (<[TEMPORARY_FILES_FOLDER_NAME := {| entry_kind := Directory; st_mtime := now |}]> fs).
    eexists. rewrite bool_decide_eq_false_2 by (intros [? ?]; discriminate).
    repeat split; [apply lookup_insert_eq | reflexivity].
Qed.

(** C3: with the folder in place, the sweep ends without an exception and
    takes away of the folder's entries exactly the regular files modified
    more than 3600 seconds before [now]; a file modified at most one hour
    ago stays as it was, so a file 61 minutes old goes and one 59 minutes
    old stays. *)
Theorem clear_tempfiles_cutoff now fs d :
  fs !! TEMPORARY_FILES_FOLDER_NAME = Some d ->
  entry_kind d = Directory ->
  exists fs',
    clear_tempfiles now fs = Ok fs' /\
    forall name e,
      let file_path := os_path_join TEMPORARY_FILES_FOLDER_NAME name in
      fs !! file_path = Some e ->
      (fs' !! file_path = None <->
       entry_kind e = RegularFile /\ (3600 < now - st_mtime e)%Q) /\
      (entry_kind e = RegularFile -> (now - st_mtime e <= 3600)%Q ->
       fs' !! file_path = Some e) /\
      (entry_kind e = RegularFile -> (st_mtime e == now - 61 * 60)%Q ->
       fs' !! file_path = None) /\
      (entry_kind e = RegularFile -> (st_mtime e == now - 59 * 60)%Q ->
       fs' !! file_path = Some e).
Proof.
  intros Hd Hkind.
  destruct (clear_tempfiles_lookup now fs d Hd Hkind) as (fs' & Hrun & Hfs').
  exists fs'. split; [exact Hrun|]. intros name e file_path He.
  assert (Hchild : bool_decide (is_Some (child_name TEMPORARY_FILES_FOLDER_NAME file_path))
                   = true).
  { apply bool_decide_eq_true. exists name. apply child_name_join. reflexivity. }
  specialize (Hfs' file_path). rewrite Hchild in Hfs'. simpl in Hfs'.
  pose proof (stale_spec (now - inject_Z 3600)%Q fs file_path e He) as Hstale.
  destruct (stale (now - inject_Z 3600)%Q fs file_path) eqn:Hs; rewrite Hfs';
    unfold inject_Z in Hstale.
  - destruct Hstale as [[Hreg Hold] _]; [reflexivity|].
    repeat split; intros; try lra; try assumption; try reflexivity.
  - assert (Hkeep : ~ (entry_kind e = RegularFile /\ (st_mtime e < now - (3600 # 1))%Q)).
    { intros H. apply Hstale in H. discriminate H. }
    rewrite He. repeat split; intros; try discriminate; try reflexivity.
    all: destruct_and?; destruct Hkeep; split; [assumption | lra].
Qed.

(** C8: the sweep keeps every entry of the folder that is not a regular
    file, whatever its age, and every path that does not lie directly in
    the folder. *)
Theorem clear_tempfiles_frame now fs d :
  fs !! TEMPORARY_FILES_FOLDER_NAME = Some d ->
  entry_kind d = Directory ->
  exists fs',
    clear_tempfiles now fs = Ok fs' /\
    (forall name e,
        fs !! os_path_join TEMPORARY_FILES_FOLDER_NAME name = Some e ->
        entry_kind e <> RegularFile ->
        fs' !! os_path_join TEMPORARY_FILES_FOLDER_NAME name = Some e) /\
    (forall p,
        (forall name, p <> os_path_join TEMPORARY_FILES_FOLDER_NAME name) ->
        fs' !! p = fs !! p).
Proof.
  intros Hd Hkind.
  destruct (clear_tempfiles_lookup now fs d Hd Hkind) as (fs' & Hrun & Hfs').
  exists fs'. split; [exact Hrun|]. split.
  - intros name e He Hother. rewrite Hfs'.
    destruct (stale (now - inject_Z 3600)%Q fs _) eqn:Hs.
    + apply (stale_spec _ _ _ _ He) in Hs. tauto.
    + rewrite andb_false_r. exact He.
  - intros p Hout. rewrite Hfs'.
    rewrite bool_decide_eq_false_2; [reflexivity|].
    intros [name Hname]. apply child_name_join in Hname. exact (Hout name Hname).
Qed.

Lemma clear_tempfiles_cutoff_witness :
  exists fs',
    clear_tempfiles 10000 sample_fs = Ok fs' /\
    fs' !! ["tempfilesProcessMiningSimple"; "dfg.png"] = None /\
    fs' !! ["tempfilesProcessMiningSimple"; "performance_dfg.png"]
    = Some {| entry_kind := RegularFile; st_mtime := 10000 - 3540 |}.
Proof.
  destruct (clear_tempfiles_cutoff 10000 sample_fs {| entry_kind := Directory; st_mtime := 0 |}
              eq_refl eq_refl) as (fs' & Hrun & Hfiles).
  exists fs'. split; [exact Hrun|]. split.
  - apply (Hfiles "dfg.png" {| entry_kind := RegularFile; st_mtime := 10000 - 3660 |} eq_refl);
      [reflexivity | vm_compute; reflexivity].
  - apply (Hfiles "performance_dfg.png"
             {| entry_kind := RegularFile; st_mtime := 10000 - 3540 |} eq_refl);
      [reflexivity | vm_compute; reflexivity].
Defined.

Lemma clear_tempfiles_frame_witness :
  exists fs',
    clear_tempfiles 10000 sample_fs = Ok fs' /\
    fs' !! ["tempfilesProcessMiningSimple"; "old"]
    = Some {| entry_kind := Directory; st_mtime := 0 |} /\
    fs' !! ["notes.txt"] = Some {| entry_kind := RegularFile; st_mtime := 0 |}.
Proof.
  destruct (clear_tempfiles_frame 10000 sample_fs {| entry_kind := Directory; st_mtime := 0 |}
              eq_refl eq_refl) as (fs' & Hrun & Hkeep & Hout).
  exists fs'. split; [exact Hrun|]. split.
  - apply (Hkeep "old" {| entry_kind := Directory; st_mtime := 0 |} eq_refl). discriminate.
  - rewrite (Hout ["notes.txt"]); [reflexivity|]. discriminate.
Defined.

(** *** More on the sweep *)

(** The sweep runs to its end only over a folder that is there. *)
Lemma clear_tempfiles_folder now fs fs' :
  clear_tempfiles now fs = Ok fs' ->
  exists d, fs !! TEMPORARY_FILES_FOLDER_NAME = Some d /\ entry_kind d = Directory.
Proof.
  unfold clear_tempfiles, os_listdir.
  destruct (fs !! TEMPORARY_FILES_FOLDER_NAME) as [d|]; [|discriminate].
  destruct (decide (entry_kind d = Directory)) as [Hd|_]; [|discriminate].
  intros _. exists d. split; [reflexivity | exact Hd].
Qed.

Lemma folder_not_its_child :
  child_name TEMPORARY_FILES_FOLDER_NAME TEMPORARY_FILES_FOLDER_NAME = None.
Proof. reflexivity. Qed.

Lemma stale_later cutoff cutoff' fs p :
  (cutoff <= cutoff')%Q -> stale cutoff fs p = true -> stale cutoff' fs p = true.
Proof.
  unfold stale. destruct (fs !! p) as [e|]; [|discriminate].
  rewrite !andb_true_iff, !Qltb_spec. intros Hle [Hk Hlt].
  split; [exact Hk | lra].
Qed.

(** What the sweep leaves at a path was there before, and the folder
    stays. *)
Lemma clear_tempfiles_leaves now fs fs' :
  clear_tempfiles now fs = Ok fs' ->
  (forall p e, fs' !! p = Some e -> fs !! p = Some e) /\
  fs' !! TEMPORARY_FILES_FOLDER_NAME = fs !! TEMPORARY_FILES_FOLDER_NAME.
Proof.
  intros Hrun. destruct (clear_tempfiles_folder now fs fs' Hrun) as (d & Hd & Hkind).
  destruct (clear_tempfiles_lookup now fs d Hd Hkind) as (fs'' & Hrun' & Hfs').
  rewrite Hrun in Hrun'. injection Hrun' as <-. split.
  - intros p e. rewrite Hfs'. destruct (_ && _); [discriminate | trivial].
  - rewrite Hfs', folder_not_its_child.
    rewrite bool_decide_eq_false_2 by (intros [? ?]; discriminate). reflexivity.
Qed.

(** [stale] looks at the entry of the path only. *)
Lemma stale_same_entry cutoff fs fs' p :
  fs !! p = fs' !! p -> stale cutoff fs p = stale cutoff fs' p.
Proof. unfold stale. intros ->. reflexivity. Qed.

(** X1: the sweep only takes away: every path other than the folder that
    it leaves has the entry it had, and the folder stays a directory. *)
Theorem clear_tempfiles_only_removes now fs fs' :
  clear_tempfiles now fs = Ok fs' ->
  (forall p e, p <> TEMPORARY_FILES_FOLDER_NAME -> fs' !! p = Some e -> fs !! p = Some e) /\
  exists d, fs' !! TEMPORARY_FILES_FOLDER_NAME = Some d /\ entry_kind d = Directory.
Proof.
  intros Hrun. destruct (clear_tempfiles_leaves now fs fs' Hrun) as [Hleft Hfolder].
  destruct (clear_tempfiles_folder now fs fs' Hrun) as (d & Hd & Hkind).
  split.
  - intros p e _. apply Hleft.
  - exists d. rewrite Hfolder. split; [exact Hd | exact Hkind].
Qed.

Lemma clear_tempfiles_only_removes_witness :
  exists fs',
    clear_tempfiles 10000 sample_fs = Ok fs' /\
    forall e, fs' !! ["tempfilesProcessMiningSimple"; "new.png"] = Some e -> False.
Proof.
  destruct (clear_tempfiles_lookup 10000 sample_fs
              {| entry_kind := Directory; st_mtime := 0 |} eq_refl eq_refl)
    as (fs' & Hrun & _).
  exists fs'. split; [exact Hrun|]. intros e He.
  apply (proj1 (clear_tempfiles_only_removes 10000 sample_fs fs' Hrun)) in He;
    discriminate.
Defined.

(** X2: a sweep after a sweep leaves what the later sweep alone leaves,
    whatever the first sweep did to the folder's own entry; and a second
    sweep at the time of the first changes nothing. *)
Theorem clear_tempfiles_twice now now' fs fs1 fs1' d' :
  (now <= now')%Q ->
  clear_tempfiles now fs = Ok fs1 ->
  same_but_folder fs1 fs1' ->
  fs1' !! TEMPORARY_FILES_FOLDER_NAME = Some d' ->
  entry_kind d' = Directory ->
  (exists fs2 fs3,
      clear_tempfiles now' fs1' = Ok fs2 /\
      clear_tempfiles now' fs = Ok fs3 /\
      same_but_folder fs2 fs3) /\
  clear_tempfiles now fs1' = Ok fs1'.
Proof.
  intros Hle Hrun Hsame Hd' Hkind'.
  destruct (clear_tempfiles_folder now fs fs1 Hrun) as (d & Hd & Hkind).
  destruct (clear_tempfiles_lookup now fs d Hd Hkind) as (fs1'' & Hrun1 & Hfs1).
  rewrite Hrun in Hrun1. injection Hrun1 as <-.
  assert (Hchild : forall p,
            bool_decide (is_Some (child_name TEMPORARY_FILES_FOLDER_NAME p)) = true ->
            p <> TEMPORARY_FILES_FOLDER_NAME).
  { intros p Hp ->. rewrite folder_not_its_child in Hp.
    apply bool_decide_eq_true in Hp as [? Hp]. discriminate Hp. }
  split.
  - destruct (clear_tempfiles_lookup now' fs1' d' Hd' Hkind') as (fs2 & Hrun2 & Hfs2).
    destruct (clear_tempfiles_lookup now' fs d Hd Hkind) as (fs3 & Hrun3 & Hfs3).
    exists fs2, fs3. split; [exact Hrun2|]. split; [exact Hrun3|].
    intros p Hp. rewrite Hfs2, Hfs3.
    rewrite <- (stale_same_entry _ fs1 fs1' p (Hsame p Hp)), <- (Hsame p Hp), Hfs1.
    destruct (bool_decide (is_Some (child_name TEMPORARY_FILES_FOLDER_NAME p)));
      [|reflexivity].
    cbn [andb].
    destruct (stale (now - inject_Z 3600)%Q fs p) eqn:Hs.
    + rewrite (stale_later (now - inject_Z 3600)%Q (now' - inject_Z 3600)%Q fs p)
        by (exact Hs || lra).
      destruct (stale _ fs1 p); reflexivity.
    + assert (Hsame' : stale (now' - inject_Z 3600)%Q fs1 p
                       = stale (now' - inject_Z 3600)%Q fs p).
      { unfold stale at 1. rewrite Hfs1, Hs, andb_false_r. reflexivity. }
      rewrite Hsame'. reflexivity.
  - destruct (clear_tempfiles_lookup now fs1' d' Hd' Hkind') as (fs2 & Hrun2 & Hfs2).
    rewrite Hrun2. f_equal. apply map_eq. intros p. rewrite Hfs2.
    destruct (bool_decide (is_Some (child_name TEMPORARY_FILES_FOLDER_NAME p))) eqn:Hp;
      [|reflexivity].
    cbn [andb]. specialize (Hchild p Hp).
    destruct (stale (now - inject_Z 3600)%Q fs1' p) eqn:Hs; [|reflexivity].
    rewrite <- (stale_same_entry _ fs1 fs1' p (Hsame p Hchild)) in Hs.
    rewrite <- (Hsame p Hchild).
    unfold stale in Hs. rewrite Hfs1, Hp in Hs. cbn [andb] in Hs. rewrite Hfs1, Hp.
    cbn [andb].
    destruct (stale (now - inject_Z 3600)%Q fs p) eqn:Hs0; [reflexivity|].
    unfold stale in Hs0. rewrite Hs0 in Hs. discriminate Hs.
Qed.

Lemma clear_tempfiles_twice_witness :
  exists fs1,
    clear_tempfiles 10000 sample_fs = Ok fs1 /\
    clear_tempfiles 10000
      (<[TEMPORARY_FILES_FOLDER_NAME := {| entry_kind := Directory; st_mtime := 10000 |}]> fs1)
    = Ok (<[TEMPORARY_FILES_FOLDER_NAME :=
              {| entry_kind := Directory; st_mtime := 10000 |}]> fs1).
Proof.
  destruct (clear_tempfiles_lookup 10000 sample_fs
              {| entry_kind := Directory; st_mtime := 0 |} eq_refl eq_refl)
    as (fs1 & Hrun & _).
  exists fs1. split; [exact Hrun|].
  apply (clear_tempfiles_twice 10000 10100 sample_fs fs1 _
           {| entry_kind := Directory; st_mtime := 10000 |}).
  - vm_compute. discriminate.
  - exact Hrun.
  - intros p Hp. symmetry. apply lookup_insert_ne. congruence.
  - apply lookup_insert_eq.
  - reflexivity.
Defined.

(** Lines 21 and 22 change the file system at the folder's path only. *)
Lemma startup_folder_step now fs :
  (forall e, fs !! TEMPORARY_FILES_FOLDER_NAME = Some e -> entry_kind e = Directory) ->
  exists fs1 d,
    startup now fs = clear_tempfiles now fs1 /\
    fs1 !! TEMPORARY_FILES_FOLDER_NAME = Some d /\ entry_kind d = Directory /\
    forall p, p <> TEMPORARY_FILES_FOLDER_NAME -> fs1 !! p = fs !! p.
Proof.
  intros Hdir. unfold startup, os_path_exists, os_makedirs.
  destruct (fs !! TEMPORARY_FILES_FOLDER_NAME) as [e|] eqn:He.
  - exists fs, e. rewrite bool_decide_eq_true_2 by eauto.
    repeat split; [exact He | apply Hdir; reflexivity].
  - exists (<[TEMPORARY_FILES_FOLDER_NAME := {| entry_kind := Directory; st_mtime := now |}]> fs).
    eexists. rewrite bool_decide_eq_false_2 by (intros [? ?]; discriminate).
    repeat split; [apply lookup_insert_eq | reflexivity |].
    intros p Hp. apply lookup_insert_ne. congruence.
Qed.

(** X3: the start of the script.  When the folder's name is free or names
    a directory, the folder is created if missing and swept, and the script
    goes on with the folder in place and, beside the folder, nothing that
    was not there before.  When the name is taken by something else, the
    script ends in [NotADirectoryError]. *)
Theorem startup_outcome now fs :
  ((forall e, fs !! TEMPORARY_FILES_FOLDER_NAME = Some e -> entry_kind e = Directory) ->
   exists fs' d,
     startup now fs = Ok fs' /\
     fs' !! TEMPORARY_FILES_FOLDER_NAME = Some d /\ entry_kind d = Directory /\
     forall p e, p <> TEMPORARY_FILES_FOLDER_NAME ->
                 fs' !! p = Some e -> fs !! p = Some e) /\
  (forall e, fs !! TEMPORARY_FILES_FOLDER_NAME = Some e -> entry_kind e <> Directory ->
             startup now fs = Raise (NotADirectoryError TEMPORARY_FILES_FOLDER_NAME)).
Proof.
  split.
  - intros Hfree.
    destruct (startup_folder_step now fs Hfree) as (fs1 & d & Hstart & Hd & Hkind & Hrest).
    destruct (clear_tempfiles_lookup now fs1 d Hd Hkind) as (fs' & Hrun & _).
    destruct (clear_tempfiles_leaves now fs1 fs' Hrun) as [Hleft Hfolder].
    exists fs', d. rewrite Hstart.
    split; [exact Hrun|]. split; [rewrite Hfolder; exact Hd|]. split; [exact Hkind|].
    intros p e Hp He. rewrite <- (Hrest p Hp). exact (Hleft p e He).
  - intros e He Hkind. unfold startup, os_path_exists.
    rewrite bool_decide_eq_true_2 by eauto. cbn.
    unfold clear_tempfiles, os_listdir. rewrite He.
    rewrite decide_False by exact Hkind. reflexivity.
Qed.

Lemma startup_outcome_witness :
  (exists fs', startup 10000 ∅ = Ok fs' /\
               fs' !! ["notes.txt"] = None) /\
  startup 10000 (<[TEMPORARY_FILES_FOLDER_NAME :=
                     {| entry_kind := RegularFile; st_mtime := 0 |}]> ∅)
  = Raise (NotADirectoryError TEMPORARY_FILES_FOLDER_NAME).
Proof.
  destruct (startup_outcome 10000 ∅) as [Hfree _].
  destruct (startup_outcome 10000 (<[TEMPORARY_FILES_FOLDER_NAME :=
              {| entry_kind := RegularFile; st_mtime := 0 |}]> ∅)) as [_ Htaken].
  split.
  - destruct Hfree as (fs' & d & Hrun & _ & _ & Hold).
    + intros e He. rewrite lookup_empty in He. discriminate He.
    + exists fs'. split; [exact Hrun|].
      destruct (fs' !! ["notes.txt"]) as [e|] eqn:He; [|reflexivity].
      apply Hold in He; [|discriminate]. rewrite lookup_empty in He. discriminate He.
  - apply (Htaken {| entry_kind := RegularFile; st_mtime := 0 |});
      [reflexivity | discriminate].
Defined.

End Sweep.

(** ** The keys of the variant table *)

Section Variants.

Lemma has_dot_append (a rest : string) : has_dot (a +:+ String "." rest) = true.
Proof.
  induction a as [|c a IH]; [reflexivity|].
  change (Ascii.eqb c "." || has_dot (a +:+ String "." rest) = true).
  rewrite IH. apply orb_true_r.
Qed.

(** Two texts cut at their first dot: equal texts have equal parts. *)
Lemma append_dot_split (a b x y : string) :
  has_dot a = false -> has_dot b = false ->
  a +:+ String "." x = b +:+ String "." y -> a = b /\ x = y.
Proof.
  revert b. induction a as [|c a IH]; intros [|d b]; cbn.
  - intros _ _ [= ->]. split; reflexivity.
  - intros _ Hb [= <- _]. cbn in Hb. discriminate Hb.
  - intros Ha _ [= -> _]. cbn in Ha. discriminate Ha.
  - intros Ha Hb [= <- Heq].
    apply orb_false_iff in Ha as [_ Ha]. apply orb_false_iff in Hb as [_ Hb].
    destruct (IH b Ha Hb Heq) as [-> ->]. split; reflexivity.
Qed.

Lemma variant_key_cons (name next : string) (others : list string) :
  variant_key (name :: next :: others)
  = name +:+ String "." (variant_key (next :: others)).
Proof. reflexivity. Qed.

(** Variants of dot-free names have different keys. *)
Lemma variant_key_inj (k1 k2 : list string) :
  plain_variant k1 -> plain_variant k2 ->
  variant_key k1 = variant_key k2 -> k1 = k2.
Proof.
  intros [Hne1 Hplain1] [Hne2 Hplain2]. revert k2 Hne1 Hne2 Hplain2.
  induction Hplain1 as [|a k1 Ha Hk1 IH]; intros k2 Hne1 Hne2 Hplain2; [congruence|].
  destruct Hplain2 as [|b k2 Hb Hk2]; [congruence|].
  destruct k1 as [|a' k1], k2 as [|b' k2].
  - cbn. congruence.
  - rewrite variant_key_cons. cbn [variant_key String.concat]. intros ->.
    rewrite has_dot_append in Ha. discriminate Ha.
  - rewrite variant_key_cons. cbn [variant_key String.concat]. intros <-.
    rewrite has_dot_append in Hb. discriminate Hb.
  - rewrite !variant_key_cons. intros Heq.
    destruct (append_dot_split _ _ _ _ Ha Hb Heq) as [-> Hrest].
    f_equal. apply IH; [discriminate | discriminate | exact Hk2 | exact Hrest].
Qed.

(** The dict comprehension over entries of different keys keeps them
    all. *)
Lemma log_variants_new_fresh {V : Type} (entries : list (list string * V))
    (d : gmap string V) :
  NoDup (variant_key <$> entries.*1) ->
  (forall k, k ∈ entries.*1 -> d !! variant_key k = None) ->
  let d' := foldl (fun d '(k, v) => <[variant_key k := v]> d) d entries in
  size d' = size d + length entries /\
  (forall k v, (k, v) ∈ entries -> d' !! variant_key k = Some v) /\
  (forall key, key ∉ variant_key <$> entries.*1 -> d' !! key = d !! key).
Proof.
  revert d. induction entries as [|[k v] entries IH]; intros d Hnodup Hfresh; cbv zeta.
  - split; [cbn; lia|]. split.
    + intros k v Hin. apply elem_of_nil in Hin. destruct Hin.
    + intros key _. reflexivity.
  - rewrite !fmap_cons in Hnodup. rewrite fmap_cons in Hfresh. cbn [fst] in *.
    apply NoDup_cons in Hnodup as [Hk Hnodup].
    assert (Hhere : d !! variant_key k = None) by (apply Hfresh, list_elem_of_here).
    destruct (IH (<[variant_key k := v]> d) Hnodup) as (Hsize & Hin & Hout).
    { intros k' Hk'. rewrite lookup_insert_ne.
      - apply Hfresh, list_elem_of_further, Hk'.
      - intros Heq. apply Hk. rewrite Heq. apply list_elem_of_fmap_2. exact Hk'. }
    cbn [foldl]. split; [|split].
    + rewrite Hsize, map_size_insert_None by exact Hhere. cbn [length]. lia.
    + intros k' v' Hk'. apply elem_of_cons in Hk' as [Heq|Hk'].
      * injection Heq as -> ->. rewrite Hout by exact Hk. apply lookup_insert_eq.
      * apply Hin. exact Hk'.
    + intros key Hkey. rewrite !fmap_cons in Hkey. cbn [fst] in Hkey.
      apply not_elem_of_cons in Hkey as [Hne Hkey].
      rewrite Hout by exact Hkey. apply lookup_insert_ne. congruence.
Qed.

(** X17: when no activity name holds a dot, the variant table has one
    entry per variant, under the variant's names joined by dots. *)
Theorem log_variants_new_plain {V : Type} (log_variants : list (list string * V)) :
  NoDup log_variants.*1 ->
  Forall plain_variant log_variants.*1 ->
  size (log_variants_new log_variants) = length log_variants /\
  forall k v, (k, v) ∈ log_variants ->
              log_variants_new log_variants !! variant_key k = Some v.
Proof.
  intros Hnodup Hplain.
  assert (Hkeys : NoDup (variant_key <$> log_variants.*1)).
  { apply NoDup_fmap_2_strong; [|exact Hnodup].
    intros k1 k2 Hk1 Hk2. rewrite Forall_forall in Hplain.
    apply variant_key_inj; apply Hplain; assumption. }
  destruct (log_variants_new_fresh log_variants ∅ Hkeys) as (Hsize & Hin & _).
  { intros k _. apply lookup_empty. }
  unfold log_variants_new. split; [|exact Hin].
  rewrite Hsize, map_size_empty. reflexivity.
Qed.

Lemma log_variants_new_plain_witness :
  size (log_variants_new [(["Granulation"; "Tabletting"; "Coating"], 3%nat);
                          (["Granulation"; "Tabletting"; "Coating"; "Sorting"], 2%nat)])
  = 2.
Proof.
  apply (log_variants_new_plain
           [(["Granulation"; "Tabletting"; "Coating"], 3%nat);
            (["Granulation"; "Tabletting"; "Coating"; "Sorting"], 2%nat)]).
  - repeat constructor; cbn; intros Hin;
      repeat (apply elem_of_cons in Hin as [Hin|Hin]; [discriminate Hin|]);
      apply elem_of_nil in Hin; exact Hin.
  - repeat constructor; discriminate.
Defined.

(** X18: a variant of one activity whose name holds a dot and the variant
    of the two activities named by its halves get the same key: of the two
    entries the table keeps one, with what the later entry holds. *)
Theorem log_variants_new_dotted {V : Type} (a b : string) (first second : V) :
  [a +:+ "." +:+ b] <> [a; b] /\
  log_variants_new [([a +:+ "." +:+ b], first); ([a; b], second)]
  = {[ a +:+ "." +:+ b := second ]}.
Proof.
  split; [discriminate|].
  unfold log_variants_new. cbn [foldl].
  change (variant_key [a; b]) with (a +:+ "." +:+ b).
  change (variant_key [a +:+ "." +:+ b]) with (a +:+ "." +:+ b).
  rewrite insert_insert_eq. reflexivity.
Qed.

End Variants.
